(** * Bookstore backend: orders, payments, cart and registration

    A shallow embedding of the service layer of the bookstore backend
    (orderService, paymentService, cartService, bookService.updateBook,
    authService.register with userFactory) over an explicit model of the
    relational store that the services reach through the Prisma client.

    Conventions.
    - Operations run one at a time: a service call is a function from
      the rows before it to its outcome and the rows after it.
    - Identifiers (uuid strings) are [string]s.  A call to [uuidv4()] is
      an extra argument of the operation that makes the call.
    - [new Date()] is an extra argument [now] of the operation.
    - Money (Prisma [Decimal] columns, JavaScript numbers after
      [Number(...)]) is a [Z]: an amount in the smallest currency unit.
      The seed data only has whole amounts (100000, 120000, ...).
    - Quantities and stock counters (Prisma [Int], [parseInt] in the
      controllers) are [Z].
    - A thrown [Error] is a constructor of [Error] that records the
      message; a [PrismaClientKnownRequestError] is [Known code]. *)

From stdpp Require Import gmap strings list fin_maps pretty.
From Stdlib Require Import ZArith Lia.

Local Open Scope Z_scope.

Abbreviation ID := string (only parsing).

(** ** Rows *)

Record Address := mkAddress {
  addressID : ID;
  specificAddress : option string;
  ward : string;
  city : string
}.

(** A [User] row together with its [addresses] relation, as loaded by
    [findUnique({ include: { addresses: true } })]. *)
Record User := mkUser {
  user_authID : ID;
  user_name : string;
  addresses : list Address
}.

Record Author := mkAuthor { author_name : string; author_authID : ID }.
Record Admin := mkAdmin { admin_authID : ID }.

Inductive Role := role_user | role_author | role_admin.

Record Authentication := mkAuthentication {
  authID : ID;
  email : string;
  pass : string;
  role : Role
}.

Record Book := mkBook {
  title : string;
  price : Z;
  stockQuantity : Z;
  soldNumber : Z
}.

Inductive OrderStatus := pending | processing | completed | canceled.

Record OrderBook := mkOrderBook {
  bookID : ID;
  priceAtTime : Z;
  quantity : Z;
  subTotal : Z
}.

(** An [Order] row with its [books] relation (the [OrderBook] rows that
    the nested [create] writes with it). *)
Record Order := mkOrder {
  order_userID : ID;
  status : OrderStatus;
  totalAmount : Z;
  addressSnapshot : string;
  phoneSnapshot : string;
  books : list OrderBook
}.

(** [PaymentStatus.processing] is [payment_processing] here, next to
    [OrderStatus.processing]. *)
Inductive PaymentStatus := payment_processing | paid | failed.
Inductive PaymentMethod := qr_code | credit_card | cod.

Record Payment := mkPayment {
  payment_orderID : ID;
  payment_status : PaymentStatus;
  method : PaymentMethod;
  amount : Z;
  paidAt : option Z
}.

Record Cart := mkCart { cartID : ID; cart_userID : ID }.

Record CartBook := mkCartBook {
  cb_cartID : ID;
  cb_bookID : ID;
  cb_quantity : Z;
  isSelected : bool;
  addedAt : Z
}.

#[global] Instance OrderStatus_eq_dec : EqDecision OrderStatus.
Proof. solve_decision. Defined.
#[global] Instance PaymentStatus_eq_dec : EqDecision PaymentStatus.
Proof. solve_decision. Defined.
#[global] Instance Role_eq_dec : EqDecision Role.
Proof. solve_decision. Defined.

(** ** The store

    One table per Prisma model the services touch.  [User], [Author],
    [Admin], [Book], [Order] and [Payment] are finite maps from their
    primary key.  [Authentication], [Cart] and [CartBook] are row
    lists: they are searched by other columns ([email], [userID], the
    compound key [cartID_bookID]), and how many rows match is what
    some of the properties below are about. *)
Record DB := mkDB {
  db_authentication : list Authentication;
  db_user : gmap ID User;
  db_author : gmap ID Author;
  db_admin : gmap ID Admin;
  db_book : gmap ID Book;
  db_cart : list Cart;
  db_cartBook : list CartBook;
  db_order : gmap ID Order;
  db_payment : gmap ID Payment
}.

Definition empty_db : DB := mkDB [] ∅ ∅ ∅ ∅ [] [] ∅ ∅.

Definition with_authentication (f : list Authentication → list Authentication) (s : DB) : DB :=
  mkDB (f (db_authentication s)) (db_user s) (db_author s) (db_admin s)
       (db_book s) (db_cart s) (db_cartBook s) (db_order s) (db_payment s).
Definition with_user (f : gmap ID User → gmap ID User) (s : DB) : DB :=
  mkDB (db_authentication s) (f (db_user s)) (db_author s) (db_admin s)
       (db_book s) (db_cart s) (db_cartBook s) (db_order s) (db_payment s).
Definition with_author (f : gmap ID Author → gmap ID Author) (s : DB) : DB :=
  mkDB (db_authentication s) (db_user s) (f (db_author s)) (db_admin s)
       (db_book s) (db_cart s) (db_cartBook s) (db_order s) (db_payment s).
Definition with_admin (f : gmap ID Admin → gmap ID Admin) (s : DB) : DB :=
  mkDB (db_authentication s) (db_user s) (db_author s) (f (db_admin s))
       (db_book s) (db_cart s) (db_cartBook s) (db_order s) (db_payment s).
Definition with_book (f : gmap ID Book → gmap ID Book) (s : DB) : DB :=
  mkDB (db_authentication s) (db_user s) (db_author s) (db_admin s)
       (f (db_book s)) (db_cart s) (db_cartBook s) (db_order s) (db_payment s).
Definition with_cart (f : list Cart → list Cart) (s : DB) : DB :=
  mkDB (db_authentication s) (db_user s) (db_author s) (db_admin s)
       (db_book s) (f (db_cart s)) (db_cartBook s) (db_order s) (db_payment s).
Definition with_cartBook (f : list CartBook → list CartBook) (s : DB) : DB :=
  mkDB (db_authentication s) (db_user s) (db_author s) (db_admin s)
       (db_book s) (db_cart s) (f (db_cartBook s)) (db_order s) (db_payment s).
Definition with_order (f : gmap ID Order → gmap ID Order) (s : DB) : DB :=
  mkDB (db_authentication s) (db_user s) (db_author s) (db_admin s)
       (db_book s) (db_cart s) (db_cartBook s) (f (db_order s)) (db_payment s).
Definition with_payment (f : gmap ID Payment → gmap ID Payment) (s : DB) : DB :=
  mkDB (db_authentication s) (db_user s) (db_author s) (db_admin s)
       (db_book s) (db_cart s) (db_cartBook s) (db_order s) (f (db_payment s)).

(** ** Errors *)

Inductive PrismaCode :=
  | P2002  (* unique constraint failed *)
  | P2003  (* foreign key constraint failed *)
  | P2025. (* record to update or delete not found *)

Inductive Error :=
  | UserNotFound                 (* "User not found" *)
  | AddressNotFound              (* "Address not found or does not belong to user" *)
  | OrderMustHaveItems           (* "Order must have at least one item" *)
  | BookIdNotFound (b : ID)      (* `Book ${item.bookID} not found` *)
  | NotEnoughStockFor (t : string) (available : Z)
                                 (* `Not enough stock for book ${book.title}. Available: ...` *)
  | InvalidQuantity (t : string) (* `Invalid quantity for book ${book.title}` *)
  | InvalidUserOrBookID          (* "Invalid userID or bookID" *)
  | OrderNotFound                (* "Order not found" *)
  | OnlyPendingCanBeCanceled     (* "Only pending orders can be canceled" *)
  | PaymentNotFound              (* "Payment not found" *)
  | PaymentAlreadyExists         (* "Payment already exists for this order" *)
  | AmountMismatch (a total : Z) (* `Payment amount (...) does not match order total (...)` *)
  | InvalidOrderID               (* "Invalid orderID" *)
  | BookNotFound                 (* "Book not found" *)
  | NotEnoughStock (available : Z) (* `Not enough stock. Available: ...` *)
  | InvalidBookID                (* "Invalid bookID" *)
  | FailedToRetrieveCart         (* "Failed to retrieve updated cart" *)
  | BookTitleExists              (* "Book with this title already exists" *)
  | InvalidGenreID               (* "Invalid genre ID provided" *)
  | FailedToRetrieveBook         (* "Failed to retrieve updated book" *)
  | CartNotFound                 (* "Cart not found" *)
  | EmailAlreadyExists           (* "Email already exists" *)
  | RegistrationFailed           (* "Registration failed" *)
  | Known (code : PrismaCode).   (* PrismaClientKnownRequestError *)

Inductive result (A : Type) : Type :=
  | Ok (a : A)
  | Err (e : Error).
Arguments Ok {A} a.
Arguments Err {A} e.

(** ** Statements and transactions

    [Tx A] is a computation against one connection: it either fails, or
    returns a value and the rows as it leaves them.  Inside a
    transaction a failure discards the rows, so none are returned. *)
Definition Tx (A : Type) : Type := DB → result (A * DB).

Definition ret {A} (a : A) : Tx A := λ s, Ok (a, s).
Definition throw {A} (e : Error) : Tx A := λ _, Err e.
Definition bind {A B} (m : Tx A) (k : A → Tx B) : Tx B :=
  λ s, match m s with
       | Ok (a, s') => k a s'
       | Err e => Err e
       end.

Notation "'let!' x ':=' m 'in' k" := (bind m (λ x, k))
  (at level 10, x pattern, m at level 100, k at level 200).
Notation "m ';;' k" := (bind m (λ _, k))
  (at level 100, k at level 200, right associativity).

(** An operation of a service: it returns its outcome and the committed
    rows.  [transaction] is [prisma.$transaction(async (tx) => ...)]:
    the callback's writes are committed when it returns and dropped
    when it throws.  A single statement on the global client is a
    transaction of its own. *)
Definition Op (A : Type) : Type := DB → result A * DB.

Definition transaction {A} (body : Tx A) : Op A :=
  λ s, match body s with
       | Ok (a, s') => (Ok a, s')
       | Err e => (Err e, s)
       end.

(** [try { ... } catch (error) { ... throw h(error) }]. *)
Definition catch {A} (op : Op A) (h : Error → Error) : Op A :=
  λ s, match op s with
       | (Ok a, s') => (Ok a, s')
       | (Err e, s') => (Err (h e), s')
       end.

Definition op_ret {A} (a : A) : Op A := λ s, (Ok a, s).
Definition op_bind {A B} (m : Op A) (k : A → Op B) : Op B :=
  λ s, match m s with
       | (Ok a, s') => k a s'
       | (Err e, s') => (Err e, s')
       end.

(** ** The schema *)

(** Modelled from the spec: the Prisma schema is not among the
    sources.  The specification gives the store foreign-key and
    uniqueness constraints; the unique columns are those the services
    pass to [findUnique].  Two choices of the schema that the services
    can observe are left open, as parameters of the model: whether
    relations are foreign keys of the database
    ([relationMode = "foreignKeys"], Prisma's default) or are emulated
    by the client ([relationMode = "prisma"], which checks nothing when
    a row is created), and whether [OrderBook] has the compound key
    (orderID, bookID), as [CartBook] has (cartID, bookID). *)
Inductive RelationMode := foreignKeys | prismaRelations.

Record Schema := mkSchema {
  relationMode : RelationMode;
  orderBook_compound_id : bool
}.

(** ** Inputs and responses *)

Record OrderItemInput := mkOrderItemInput {
  item_bookID : ID;
  item_quantity : Z
}.

Record OrderCreateInput := mkOrderCreateInput {
  in_userID : ID;
  in_addressID : ID;
  in_phone : string;
  in_items : list OrderItemInput
}.

(** [formatOrderResponse] without [createdAt], [payment] and the two
    fields it reads through the [book] relation ([bookTitle],
    [bookImage]); [resp_items] are the order's lines. *)
Record OrderResponse := mkOrderResponse {
  resp_orderID : ID;
  resp_status : OrderStatus;
  resp_totalAmount : Z;
  resp_addressSnapshot : string;
  resp_phoneSnapshot : string;
  resp_userID : ID;
  resp_items : list OrderBook
}.



Record PaymentCreateInput := mkPaymentCreateInput {
  pay_orderID : ID;
  pay_method : PaymentMethod;
  pay_amount : Z
}.

(** [isSelected] is optional and defaults to [true]. *)
Record CartItemInput := mkCartItemInput {
  ci_bookID : ID;
  ci_quantity : Z;
  ci_isSelected : option bool
}.

(** [formatCartResponse] without the fields it reads through the
    [book] relation ([bookTitle], [bookPrice], [bookImage], [subTotal],
    [totalPrice]). *)
Record CartResponse := mkCartResponse {
  cr_cartID : ID;
  cr_userID : ID;
  cr_items : list CartBook;
  cr_totalItems : Z
}.

(** [phone], [gender] and [birthDate] are stored on the [User] row and
    read by nothing here; they are left out. *)
Record RegisterInput := mkRegisterInput {
  reg_email : string;
  reg_password : string;
  reg_name : string;
  reg_role : Role
}.

(** The four [uuidv4()] calls a registration can make, in the order of
    the code: the [authID], the [userID] local of [register], the key
    that the [userFactory] function draws for the profile row, and the
    [cartID]. *)
Record RegisterIds := mkRegisterIds {
  gen_authID : ID;
  gen_userID : ID;
  gen_profileID : ID;
  gen_cartID : ID
}.

(** The [data.user] of the response of [register]; the token is left
    out. *)
Record AuthUser := mkAuthUser {
  au_id : ID;
  au_email : string;
  au_name : string;
  au_role : Role
}.

(** ** Two connections

    [register] awaits statements of the global client inside the
    callback of a transaction.  [Tx2 A] runs against the committed rows
    and the rows as the open transaction sees them: a statement of the
    transaction ([in_tx]) reads and writes the second; a write of the
    global client ([on_global]) is checked against the committed rows,
    commits at once, and is then visible to the transaction as well. *)
Definition Tx2 (A : Type) : Type := DB → DB → DB * result (A * DB).

Definition ret2 {A} (a : A) : Tx2 A := λ g t, (g, Ok (a, t)).
Definition throw2 {A} (e : Error) : Tx2 A := λ g _, (g, Err e).
Definition bind2 {A B} (m : Tx2 A) (k : A → Tx2 B) : Tx2 B :=
  λ g t, match m g t with
         | (g', Ok (a, t')) => k a g' t'
         | (g', Err e) => (g', Err e)
         end.
Definition in_tx {A} (m : Tx A) : Tx2 A := λ g t, (g, m t).

(** A write statement: the constraint check and the row change. *)
Record Write := mkWrite {
  w_check : DB → option Error;
  w_apply : DB → DB
}.

Definition exec (w : Write) : Tx unit :=
  λ s, match w_check w s with
       | Some e => Err e
       | None => Ok ((), w_apply w s)
       end.

Definition on_global (w : Write) : Tx2 unit :=
  λ g t, match w_check w g with
         | Some e => (g, Err e)
         | None => (w_apply w g, Ok ((), w_apply w t))
         end.

(** [prisma.$transaction] whose callback also uses the global client:
    a throw drops the transaction's writes only. *)
Definition transaction2 {A} (body : Tx2 A) : Op A :=
  λ s, match body s s with
       | (_, Ok (a, t)) => (Ok a, t)
       | (g, Err e) => (Err e, g)
       end.

Notation "'let!!' x ':=' m 'in' k" := (bind2 m (λ x, k))
  (at level 10, x pattern, m at level 100, k at level 200).

Section Services.

Variable schema : Schema.

(** A foreign-key check: it is made only when the database holds the
    relation as a foreign key. *)
Definition fk_holds (present : bool) : bool :=
  match relationMode schema with
  | foreignKeys => present
  | prismaRelations => true
  end.

(** *** Statements of the Prisma client *)

Definition user_findUnique (id : ID) : Tx (option User) :=
  λ s, Ok (db_user s !! id, s).

Definition book_findUnique (id : ID) : Tx (option Book) :=
  λ s, Ok (db_book s !! id, s).

(** [update] throws P2025 when no row has the key. *)
Definition book_update (id : ID) (data : Book → Book) : Tx Book :=
  λ s, match db_book s !! id with
       | Some b => Ok (data b, with_book (<[id := data b]>) s)
       | None => Err (Known P2025)
       end.

Definition order_findUnique (id : ID) : Tx (option Order) :=
  λ s, Ok (db_order s !! id, s).

Definition order_update (id : ID) (data : Order → Order) : Tx Order :=
  λ s, match db_order s !! id with
       | Some o => Ok (data o, with_order (<[id := data o]>) s)
       | None => Err (Known P2025)
       end.

(** [order.create] with the nested [books: { create: [...] }]. *)
Definition order_create (id : ID) (o : Order) : Tx Order :=
  λ s, match db_order s !! id with
       | Some _ => Err (Known P2002)
       | None =>
         if negb (fk_holds (bool_decide (is_Some (db_user s !! order_userID o))))
         then Err (Known P2003)
         else if negb (fk_holds (bool_decide
                   (Forall (λ l, is_Some (db_book s !! bookID l)) (books o))))
         then Err (Known P2003)
         else if orderBook_compound_id schema
                 && negb (bool_decide (NoDup (bookID <$> books o)))
         then Err (Known P2002)
         else Ok (o, with_order (<[id := o]>) s)
       end.

(** *** orderService *)

Definition formatOrderResponse (id : ID) (order : Order) : OrderResponse :=
  mkOrderResponse id (status order) (totalAmount order)
    (addressSnapshot order) (phoneSnapshot order) (order_userID order)
    (books order).

(** The template string of [createOrder]; an empty [specificAddress] is
    falsy, like a missing one. *)
Definition formatAddressSnapshot (address : Address) : string :=
  (match specificAddress address with
   | Some sa => if bool_decide (sa = "") then "" else sa +:+ ", "
   | None => ""
   end) +:+ ward address +:+ ", " +:+ city address.

(** The [for (const item of items)] loop of [createOrder], with its two
    accumulators. *)
Fixpoint processItems (items : list OrderItemInput) (total : Z)
    (orderBooks : list OrderBook) : Tx (Z * list OrderBook) :=
  match items with
  | [] => ret (total, orderBooks)
  | item :: items' =>
    let! found := book_findUnique (item_bookID item) in
    match found with
    | None => throw (BookIdNotFound (item_bookID item))
    | Some book =>
      if bool_decide (item_quantity item > stockQuantity book)
      then throw (NotEnoughStockFor (title book) (stockQuantity book))
      else if bool_decide (item_quantity item ≤ 0)
      then throw (InvalidQuantity (title book))
      else
        let sub := price book * item_quantity item in
        book_update (item_bookID item)
          (λ b, mkBook (title b) (price b)
                       (stockQuantity book - item_quantity item)
                       (soldNumber book + item_quantity item)) ;;
        processItems items' (total + sub)
          (orderBooks ++ [mkOrderBook (item_bookID item) (price book)
                                      (item_quantity item) sub])
    end
  end.

Definition createOrder_catch (e : Error) : Error :=
  match e with
  | Known P2003 => InvalidUserOrBookID
  | _ => e
  end.

(** [orderID] is the [uuidv4()] of the [order.create] call. *)
Definition createOrder (orderID : ID) (orderData : OrderCreateInput)
    : Op OrderResponse :=
  catch (transaction (
    let! user := user_findUnique (in_userID orderData) in
    match user with
    | None => throw UserNotFound
    | Some user =>
      match List.find (λ addr, bool_decide (addressID addr = in_addressID orderData))
                      (addresses user) with
      | None => throw AddressNotFound
      | Some address =>
        let snapshot := formatAddressSnapshot address in
        match in_items orderData with
        | [] => throw OrderMustHaveItems
        | _ :: _ =>
          let! processed := processItems (in_items orderData) 0 [] in
          let total := processed.1 in
          let orderBooks := processed.2 in
          let! order := order_create orderID
                          (mkOrder (in_userID orderData) pending total snapshot
                                   (in_phone orderData) orderBooks) in
          ret (formatOrderResponse orderID order)
        end
      end
    end)) createOrder_catch.

(** The [for (const orderBook of order.books)] loop of [cancelOrder]:
    [increment] and [decrement] act on the row as it is. *)
Fixpoint restoreStock (lines : list OrderBook) : Tx unit :=
  match lines with
  | [] => ret ()
  | orderBook :: lines' =>
    book_update (bookID orderBook)
      (λ b, mkBook (title b) (price b)
                   (stockQuantity b + quantity orderBook)
                   (soldNumber b - quantity orderBook)) ;;
    restoreStock lines'
  end.

Definition set_status (st : OrderStatus) (o : Order) : Order :=
  mkOrder (order_userID o) st (totalAmount o) (addressSnapshot o)
          (phoneSnapshot o) (books o).

Definition cancelOrder (id : ID) : Op OrderResponse :=
  transaction (
    let! found := order_findUnique id in
    match found with
    | None => throw OrderNotFound
    | Some order =>
      if bool_decide (status order ≠ pending)
      then throw OnlyPendingCanBeCanceled
      else
        restoreStock (books order) ;;
        let! updatedOrder := order_update id (set_status canceled) in
        ret (formatOrderResponse id updatedOrder)
    end).



(** *** paymentService *)

(** [payment.findUnique({ where: { orderID } })]: [orderID] is unique
    on [Payment]. *)
Definition payment_findUnique_orderID (orderID : ID)
    : Tx (option (ID * Payment)) :=
  λ s, Ok (List.find (λ kv, bool_decide (payment_orderID kv.2 = orderID))
                     (map_to_list (db_payment s)), s).

Definition payment_create (id : ID) (p : Payment) : Tx Payment :=
  λ s, match db_payment s !! id with
       | Some _ => Err (Known P2002)
       | None =>
         if bool_decide (map_Exists (λ _ q, payment_orderID q = payment_orderID p)
                                    (db_payment s))
         then Err (Known P2002)
         else if negb (fk_holds (bool_decide (is_Some (db_order s !! payment_orderID p))))
         then Err (Known P2003)
         else Ok (p, with_payment (<[id := p]>) s)
       end.

Definition payment_update (id : ID) (data : Payment → Payment) : Tx Payment :=
  λ s, match db_payment s !! id with
       | Some p => Ok (data p, with_payment (<[id := data p]>) s)
       | None => Err (Known P2025)
       end.

Definition createPayment_catch (e : Error) : Error :=
  match e with
  | Known P2002 => PaymentAlreadyExists
  | Known P2003 => InvalidOrderID
  | _ => e
  end.

(** [paymentID] is the [uuidv4()] of the [payment.create] call. *)
Definition createPayment (paymentID : ID) (paymentData : PaymentCreateInput)
    : Op Payment :=
  catch (transaction (
    let! order := order_findUnique (pay_orderID paymentData) in
    match order with
    | None => throw OrderNotFound
    | Some order =>
      let! existingPayment := payment_findUnique_orderID (pay_orderID paymentData) in
      match existingPayment with
      | Some _ => throw PaymentAlreadyExists
      | None =>
        if bool_decide (pay_amount paymentData ≠ totalAmount order)
        then throw (AmountMismatch (pay_amount paymentData) (totalAmount order))
        else
          payment_create paymentID
            (mkPayment (pay_orderID paymentData) payment_processing
                       (pay_method paymentData) (pay_amount paymentData) None)
      end
    end)) createPayment_catch.

(** The [updateData] object of [updatePaymentStatus]: [paidAt] is a key
    of it only for [paid]. *)
Definition updateData (st : PaymentStatus) (now : Z) (p : Payment) : Payment :=
  mkPayment (payment_orderID p) st (method p) (amount p)
            (if bool_decide (st = paid) then Some now else paidAt p).

Definition updatePaymentStatus_catch (e : Error) : Error :=
  match e with
  | Known P2025 => PaymentNotFound
  | _ => e
  end.

(** Two statements of the global client, no transaction around them. *)
Definition updatePaymentStatus (id : ID) (st : PaymentStatus) (now : Z)
    : Op Payment :=
  catch (op_bind (transaction (payment_update id (updateData st now))) (λ payment,
    if bool_decide (st = paid)
    then op_bind (transaction (order_update (payment_orderID payment)
                                            (set_status completed)))
                 (λ _, op_ret payment)
    else op_ret payment)) updatePaymentStatus_catch.

(** *** cartService *)

Definition cart_findUnique_userID (userID : ID) : Tx (option Cart) :=
  λ s, Ok (List.find (λ c, bool_decide (cart_userID c = userID)) (db_cart s), s).

Definition cart_findUnique_cartID (id : ID) : Tx (option Cart) :=
  λ s, Ok (List.find (λ c, bool_decide (cartID c = id)) (db_cart s), s).

Definition cart_create (c : Cart) : Tx Cart :=
  λ s, if existsb (λ c', bool_decide (cartID c' = cartID c)
                         || bool_decide (cart_userID c' = cart_userID c))
                  (db_cart s)
       then Err (Known P2002)
       else if negb (fk_holds (bool_decide (is_Some (db_user s !! cart_userID c))))
       then Err (Known P2003)
       else Ok (c, with_cart (λ rows, rows ++ [c]) s).

Definition cartID_bookID (c b : ID) (row : CartBook) : bool :=
  bool_decide (cb_cartID row = c) && bool_decide (cb_bookID row = b).

Definition cartBook_findUnique (c b : ID) : Tx (option CartBook) :=
  λ s, Ok (List.find (cartID_bookID c b) (db_cartBook s), s).

Definition cartBook_update (c b : ID) (data : CartBook → CartBook) : Tx unit :=
  λ s, if existsb (cartID_bookID c b) (db_cartBook s)
       then Ok ((), with_cartBook
                      (map (λ row, if cartID_bookID c b row then data row else row)) s)
       else Err (Known P2025).

Definition cartBook_create (row : CartBook) : Tx unit :=
  λ s, if existsb (cartID_bookID (cb_cartID row) (cb_bookID row)) (db_cartBook s)
       then Err (Known P2002)
       else if negb (fk_holds (existsb (λ c, bool_decide (cartID c = cb_cartID row))
                                       (db_cart s)))
       then Err (Known P2003)
       else if negb (fk_holds (bool_decide (is_Some (db_book s !! cb_bookID row))))
       then Err (Known P2003)
       else Ok ((), with_cartBook (λ rows, rows ++ [row]) s).

(** [include: { books: ... }]: the rows of [CartBook] of this cart. *)
Definition cart_books (c : ID) (s : DB) : list CartBook :=
  filter (λ row, cb_cartID row = c) (db_cartBook s).

Definition formatCartResponse (cart : Cart) (items : list CartBook) : CartResponse :=
  mkCartResponse (cartID cart) (cart_userID cart) items
    (foldl (λ sum item, sum + cb_quantity item) 0 items).

Definition addItemToCart_catch (e : Error) : Error :=
  match e with
  | Known P2003 => InvalidBookID
  | _ => e
  end.

(** [newCartID] is the [uuidv4()] drawn when the user has no cart yet,
    [now] the [new Date()] of a new row. *)
Definition addItemToCart (newCartID : ID) (now : Z) (userID : ID)
    (itemData : CartItemInput) : Op CartResponse :=
  let selected := default true (ci_isSelected itemData) in
  catch (transaction (
    let! found := cart_findUnique_userID userID in
    let! cart := match found with
                 | Some cart => ret cart
                 | None => cart_create (mkCart newCartID userID)
                 end in
    let! book := book_findUnique (ci_bookID itemData) in
    match book with
    | None => throw BookNotFound
    | Some book =>
      if bool_decide (ci_quantity itemData > stockQuantity book)
      then throw (NotEnoughStock (stockQuantity book))
      else
        let! existingItem := cartBook_findUnique (cartID cart) (ci_bookID itemData) in
        match existingItem with
        | Some existingItem =>
          cartBook_update (cartID cart) (ci_bookID itemData)
            (λ row, mkCartBook (cb_cartID row) (cb_bookID row)
                               (cb_quantity existingItem + ci_quantity itemData)
                               selected (addedAt row))
        | None =>
          cartBook_create (mkCartBook (cartID cart) (ci_bookID itemData)
                                      (ci_quantity itemData) selected now)
        end ;;
        let! updatedCart := cart_findUnique_cartID (cartID cart) in
        match updatedCart with
        | None => throw FailedToRetrieveCart
        | Some updatedCart =>
          λ s, Ok (formatCartResponse updatedCart (cart_books (cartID updatedCart) s), s)
        end
    end)) addItemToCart_catch.

(** *** authService.register and userFactory *)

Variable bcrypt_hash : string → string.

Definition authentication_findUnique_email (e : string)
    : Tx (option Authentication) :=
  λ s, Ok (List.find (λ a, bool_decide (email a = e)) (db_authentication s), s).

Definition authentication_create (a : Authentication) : Tx Authentication :=
  λ s, if existsb (λ a', bool_decide (authID a' = authID a)
                         || bool_decide (email a' = email a))
                  (db_authentication s)
       then Err (Known P2002)
       else Ok (a, with_authentication (λ rows, rows ++ [a]) s).

(** The foreign key and the 1:1 uniqueness of [authID] on a profile
    row. *)
Definition auth_row_exists (a : ID) (s : DB) : bool :=
  existsb (λ row, bool_decide (authID row = a)) (db_authentication s).

(** [userFactory.createUser]: [prisma.user.create], on the global
    client; [userID] is its own [uuidv4()]. *)
Definition createUser (userID : ID) (name : string) (a : ID) : Write :=
  mkWrite (λ s, match db_user s !! userID with
                | Some _ => Some (Known P2002)
                | None =>
                  if bool_decide (map_Exists (λ _ u, user_authID u = a) (db_user s))
                  then Some (Known P2002)
                  else if negb (fk_holds (auth_row_exists a s))
                  then Some (Known P2003)
                  else None
                end)
          (with_user (<[userID := mkUser a name []]>)).

(** [userFactory.createAuthor]. *)
Definition createAuthor (authorID : ID) (name : string) (a : ID) : Write :=
  mkWrite (λ s, match db_author s !! authorID with
                | Some _ => Some (Known P2002)
                | None =>
                  if bool_decide (map_Exists (λ _ u, author_authID u = a) (db_author s))
                  then Some (Known P2002)
                  else if negb (fk_holds (auth_row_exists a s))
                  then Some (Known P2003)
                  else None
                end)
          (with_author (<[authorID := mkAuthor name a]>)).

(** [userFactory.createAdmin]. *)
Definition createAdmin (adminID : ID) (a : ID) : Write :=
  mkWrite (λ s, match db_admin s !! adminID with
                | Some _ => Some (Known P2002)
                | None =>
                  if bool_decide (map_Exists (λ _ u, admin_authID u = a) (db_admin s))
                  then Some (Known P2002)
                  else if negb (fk_holds (auth_row_exists a s))
                  then Some (Known P2003)
                  else None
                end)
          (with_admin (<[adminID := mkAdmin a]>)).

(** [register]: the callback of the transaction uses [tx] for the
    [Authentication] row and the [Cart], and the [userFactory], which
    writes through the global client, for the profile row.  The catch
    block replaces every error. *)
Definition register (ids : RegisterIds) (userData : RegisterInput)
    : Op AuthUser :=
  catch (transaction2 (
    let!! existingAuth := in_tx (authentication_findUnique_email (reg_email userData)) in
    match existingAuth with
    | Some _ => throw2 EmailAlreadyExists
    | None =>
      let hashedPassword := bcrypt_hash (reg_password userData) in
      let!! auth := in_tx (authentication_create
                             (mkAuthentication (gen_authID ids) (reg_email userData)
                                               hashedPassword (reg_role userData))) in
      let userID := gen_userID ids in
      let!! _ :=
        match reg_role userData with
        | role_user =>
          let!! _ := on_global (createUser (gen_profileID ids) (reg_name userData)
                                           (authID auth)) in
          let!! _ := in_tx (cart_create (mkCart (gen_cartID ids) userID)) in
          ret2 ()
        | role_author =>
          on_global (createAuthor (gen_profileID ids) (reg_name userData) (authID auth))
        | role_admin =>
          on_global (createAdmin (gen_profileID ids) (authID auth))
        end in
      ret2 (mkAuthUser userID (email auth) (reg_name userData) (role auth))
    end)) (λ _, RegistrationFailed).

End Services.

(** * Vocabulary of the properties *)

(** ** Arithmetic on order lines *)

Definition sumZ (l : list Z) : Z := foldr Z.add 0 l.

(** The total quantity that the lines of an order hold of one book. *)
Definition qty_for (b : ID) (lines : list OrderBook) : Z :=
  sumZ (quantity <$> filter (λ l, bookID l = b) lines).

(** Moving [q] copies of a book from stock to sold. *)
Definition take_stock (q : Z) (bk : Book) : Book :=
  mkBook (title bk) (price bk) (stockQuantity bk - q) (soldNumber bk + q).

(** A line as [createOrder] writes it, against the books as they were
    when the transaction started. *)
Definition line_ok (s : DB) (l : OrderBook) : Prop :=
  0 < quantity l ∧ subTotal l = priceAtTime l * quantity l ∧
  ∃ bk, db_book s !! bookID l = Some bk ∧ priceAtTime l = price bk.

(** What a committed [createOrder] has done: the order row it wrote,
    and every table afterwards. *)
Definition createOrder_post (orderID : ID) (orderData : OrderCreateInput)
    (s : DB) (resp : OrderResponse) (s' : DB) (order : Order) : Prop :=
  ∃ user address,
    db_user s !! in_userID orderData = Some user ∧
    address ∈ addresses user ∧ addressID address = in_addressID orderData ∧
    in_items orderData ≠ [] ∧
    db_order s !! orderID = None ∧
    order = mkOrder (in_userID orderData) pending (sumZ (subTotal <$> books order))
                    (formatAddressSnapshot address) (in_phone orderData) (books order) ∧
    resp = formatOrderResponse orderID order ∧
    bookID <$> books order = item_bookID <$> in_items orderData ∧
    quantity <$> books order = item_quantity <$> in_items orderData ∧
    Forall (line_ok s) (books order) ∧
    s' = with_order (λ _, <[orderID := order]> (db_order s))
           (with_book (λ _, db_book s') s) ∧
    (∀ b, db_book s' !! b = take_stock (qty_for b (books order)) <$> db_book s !! b) ∧
    (∀ b bk, db_book s !! b = Some bk →
             qty_for b (books order) ≤ Z.max 0 (stockQuantity bk)).



(** ** Sequences of order operations *)






(** The ways the steps before the [order.create] of [createOrder]
    reject a request. *)
Definition item_rejected (s : DB) (item : OrderItemInput) : Prop :=
  match db_book s !! item_bookID item with
  | None => True
  | Some bk => item_quantity item ≤ 0 ∨ item_quantity item > stockQuantity bk
  end.

Definition createOrder_rejects (orderData : OrderCreateInput) (s : DB) : Prop :=
  db_user s !! in_userID orderData = None
  ∨ (∃ user, db_user s !! in_userID orderData = Some user ∧
             ∀ a, a ∈ addresses user → addressID a ≠ in_addressID orderData)
  ∨ in_items orderData = []
  ∨ Exists (item_rejected s) (in_items orderData).

(** ** Sample rows

    The order scenario of the specification: a user with one address,
    a book priced 100000 with 50 copies in stock, and a second book
    with 3 copies. *)
Definition sample_schema : Schema := mkSchema foreignKeys true.

Definition sample_db : DB :=
  mkDB [mkAuthentication "auth-001" "ann@example.com" "hash" role_user]
       {[ "user-001" := mkUser "auth-001" "Ann"
            [mkAddress "addr-001" (Some "123 Pho Hue") "Hai Ba Trung" "Ha Noi"] ]}
       ∅ ∅
       {[ "book-001" := mkBook "Book One" 100000 50 7;
          "book-002" := mkBook "Book Two" 120000 3 0 ]}
       [] [] ∅ ∅.

Definition sample_order : OrderCreateInput :=
  mkOrderCreateInput "user-001" "addr-001" "0901111111"
    [mkOrderItemInput "book-001" 2].

(** The rows after the sample order is placed as "order-100". *)
Definition sample_db_ordered : DB :=
  (createOrder sample_schema "order-100" sample_order sample_db).2.

Definition sample_order_row : Order :=
  mkOrder "user-001" pending 200000 "123 Pho Hue, Hai Ba Trung, Ha Noi"
          "0901111111" [mkOrderBook "book-001" 100000 2 200000].


(** ** Payments *)

(** Some payment row belongs to the order. *)
Definition payment_for_order (orderID : ID) (s : DB) : Prop :=
  ∃ id p, db_payment s !! id = Some p ∧ payment_orderID p = orderID.

(** Referential integrity of [Payment.orderID]: the order that owns a
    payment exists. *)
Definition payment_order_exists (s : DB) : Prop :=
  ∀ id p, db_payment s !! id = Some p → is_Some (db_order s !! payment_orderID p).

(** The sample store after the sample order is placed and a payment
    by cash on delivery is created for it as "pay-100". *)
Definition sample_payment : PaymentCreateInput :=
  mkPaymentCreateInput "order-100" cod 200000.

Definition sample_db_paying : DB :=
  (createPayment sample_schema "pay-100" sample_payment sample_db_ordered).2.

(** The same store once the payment has been marked failed at time 10. *)
Definition sample_db_failed : DB :=
  (updatePaymentStatus "pay-100" failed 10 sample_db_paying).2.

(** ** Cart items *)

Definition key_is (c b : ID) (row : CartBook) : Prop :=
  cb_cartID row = c ∧ cb_bookID row = b.

#[global] Instance key_is_dec c b row : Decision (key_is c b row).
Proof. unfold key_is. apply _. Defined.

(** The rows of [CartBook] for one (cart, book) pair. *)
Definition rows_for (c b : ID) (s : DB) : list CartBook :=
  filter (key_is c b) (db_cartBook s).


(** The cart that [addItemToCart] works on: the user's, or the one it
    creates. *)
Definition cart_used (newCartID userID : ID) (s : DB) : Cart :=
  match List.find (λ c, bool_decide (cart_userID c = userID)) (db_cart s) with
  | Some cart => cart
  | None => mkCart newCartID userID
  end.

(** The user has a cart, or is a user for whom one can be created
    under the fresh key. *)
Definition cart_ready (newCartID userID : ID) (s : DB) : Prop :=
  (∃ c, c ∈ db_cart s ∧ cart_userID c = userID)
  ∨ (is_Some (db_user s !! userID) ∧ ∀ c, c ∈ db_cart s → cartID c ≠ newCartID).

(** The rows of [CartBook] after [addItemToCart] has merged or
    inserted the item. *)
Definition cart_rows_after (c b : ID) (q : Z) (selected : bool) (now : Z)
    (rows : list CartBook) : list CartBook :=
  match List.find (cartID_bookID c b) rows with
  | Some existingItem =>
    map (λ row, if cartID_bookID c b row
                then mkCartBook (cb_cartID row) (cb_bookID row)
                                (cb_quantity existingItem + q) selected (addedAt row)
                else row) rows
  | None => rows ++ [mkCartBook c b q selected now]
  end.

(** The part of the callback of [addItemToCart] that follows the
    lookup or creation of the cart. *)
Definition addItemToCart_rest (schema : Schema) (now : Z)
    (itemData : CartItemInput) (cart : Cart) : Tx CartResponse :=
  let selected := default true (ci_isSelected itemData) in
  let! book := book_findUnique (ci_bookID itemData) in
  match book with
  | None => throw BookNotFound
  | Some book =>
    if bool_decide (ci_quantity itemData > stockQuantity book)
    then throw (NotEnoughStock (stockQuantity book))
    else
      let! existingItem := cartBook_findUnique (cartID cart) (ci_bookID itemData) in
      match existingItem with
      | Some existingItem =>
        cartBook_update (cartID cart) (ci_bookID itemData)
          (λ row, mkCartBook (cb_cartID row) (cb_bookID row)
                             (cb_quantity existingItem + ci_quantity itemData)
                             selected (addedAt row))
      | None =>
        cartBook_create schema (mkCartBook (cartID cart) (ci_bookID itemData)
                                  (ci_quantity itemData) selected now)
      end ;;
      let! updatedCart := cart_findUnique_cartID (cartID cart) in
      match updatedCart with
      | None => throw FailedToRetrieveCart
      | Some updatedCart =>
        λ s, Ok (formatCartResponse updatedCart (cart_books (cartID updatedCart) s), s)
      end
  end.

(** The sample user's cart holds 2 copies of "book-002", of which 3
    are in stock. *)
Definition sample_db_cart : DB :=
  (addItemToCart sample_schema "cart-100" 5 "user-001"
     (mkCartItemInput "book-002" 2 None) sample_db).2.

(** ** Registration *)

(** The uuids of one registration, all distinct. *)
Definition sample_ids : RegisterIds :=
  mkRegisterIds "auth-100" "user-100" "user-200" "cart-100".

Definition sample_registration : RegisterInput :=
  mkRegisterInput "bob@example.com" "secret" "Bob" role_user.

Definition emulated_schema : Schema := mkSchema prismaRelations true.

(** The sample store, in which the sample user's cart has the key
    "cart-100". *)
Definition taken_cart_db : DB :=
  with_cart (λ _, [mkCart "cart-100" "user-001"]) sample_db.

(** * The other functions of the services

    [orderService.updateOrderStatus], [getOrderById] and
    [getOrderStatistics]; the reads, [processPayment] and
    [getPaymentStatistics] of [paymentService]; the rest of
    [cartService]; [login] and [changePassword] of [authService]; and
    the [register] and [login] handlers of the auth controller. *)

(** ** Thrown values

    These functions throw messages that [Error] has no constructor
    for, and some of their catch blocks and callers look at
    [error.message].  [Thrown] adds [new Error(m)] with a literal
    message to the errors above, and [thrown_message] is the
    [message] of either.  The text that Prisma puts in a
    [PrismaClientKnownRequestError] is a parameter. *)
Inductive Thrown :=
  | Raised (e : Error)
  | Message (m : string).

Inductive outcome (A : Type) : Type :=
  | Returned (a : A)
  | Threw (t : Thrown).
Arguments Returned {A} a.
Arguments Threw {A} t.

Definition error_message (prisma_message : PrismaCode → string) (e : Error) : string :=
  match e with
  | UserNotFound => "User not found"
  | AddressNotFound => "Address not found or does not belong to user"
  | OrderMustHaveItems => "Order must have at least one item"
  | BookIdNotFound b => "Book " +:+ b +:+ " not found"
  | NotEnoughStockFor t available =>
    "Not enough stock for book " +:+ t +:+ ". Available: " +:+ pretty available
  | InvalidQuantity t => "Invalid quantity for book " +:+ t
  | InvalidUserOrBookID => "Invalid userID or bookID"
  | OrderNotFound => "Order not found"
  | OnlyPendingCanBeCanceled => "Only pending orders can be canceled"
  | PaymentNotFound => "Payment not found"
  | PaymentAlreadyExists => "Payment already exists for this order"
  | AmountMismatch a total =>
    "Payment amount (" +:+ pretty a +:+ ") does not match order total ("
      +:+ pretty total +:+ ")"
  | InvalidOrderID => "Invalid orderID"
  | BookNotFound => "Book not found"
  | NotEnoughStock available => "Not enough stock. Available: " +:+ pretty available
  | InvalidBookID => "Invalid bookID"
  | FailedToRetrieveCart => "Failed to retrieve updated cart"
  | BookTitleExists => "Book with this title already exists"
  | InvalidGenreID => "Invalid genre ID provided"
  | FailedToRetrieveBook => "Failed to retrieve updated book"
  | CartNotFound => "Cart not found"
  | EmailAlreadyExists => "Email already exists"
  | RegistrationFailed => "Registration failed"
  | Known code => prisma_message code
  end.

Definition thrown_message (prisma_message : PrismaCode → string) (t : Thrown) : string :=
  match t with
  | Raised e => error_message prisma_message e
  | Message m => m
  end.

(** [String.prototype.includes]. *)
Fixpoint includes (s sub : string) : bool :=
  String.prefix sub s
  || match s with
     | EmptyString => false
     | String _ s' => includes s' sub
     end.

(** ** Statements, transactions and operations that throw [Thrown] *)

Definition TxM (A : Type) : Type := DB → outcome (A * DB).
Definition OpM (A : Type) : Type := DB → outcome A * DB.

Definition retM {A} (a : A) : TxM A := λ s, Returned (a, s).
Definition throwM {A} (t : Thrown) : TxM A := λ _, Threw t.
Definition bindM {A B} (m : TxM A) (k : A → TxM B) : TxM B :=
  λ s, match m s with
       | Returned (a, s') => k a s'
       | Threw t => Threw t
       end.

(** A statement of the first part, run where [Thrown] is thrown. *)
Definition lift {A} (m : Tx A) : TxM A :=
  λ s, match m s with
       | Ok r => Returned r
       | Err e => Threw (Raised e)
       end.

Definition transactionM {A} (body : TxM A) : OpM A :=
  λ s, match body s with
       | Returned (a, s') => (Returned a, s')
       | Threw t => (Threw t, s)
       end.

(** A statement on the global client commits by itself. *)
Definition statement {A} (m : Tx A) : OpM A := transactionM (lift m).

Definition op_retM {A} (a : A) : OpM A := λ s, (Returned a, s).
Definition op_throwM {A} (t : Thrown) : OpM A := λ s, (Threw t, s).
Definition op_bindM {A B} (m : OpM A) (k : A → OpM B) : OpM B :=
  λ s, match m s with
       | (Returned a, s') => k a s'
       | (Threw t, s') => (Threw t, s')
       end.

Definition catchM {A} (op : OpM A) (h : Thrown → Thrown) : OpM A :=
  λ s, match op s with
       | (Returned a, s') => (Returned a, s')
       | (Threw t, s') => (Threw (h t), s')
       end.

Notation "'let*' x ':=' m 'in' k" := (bindM m (λ x, k))
  (at level 10, x pattern, m at level 100, k at level 200).
Notation "'await' x ':=' m 'in' k" := (op_bindM m (λ x, k))
  (at level 10, x pattern, m at level 100, k at level 200).

(** ** Results *)

Record OrderStatistics := mkOrderStatistics {
  totalOrders : nat;
  totalRevenue : Z;
  pendingOrders : nat;
  completedOrders : nat
}.



Record UpdateCartItemInput := mkUpdateCartItemInput {
  uc_quantity : option Z;
  uc_isSelected : option bool
}.

Record LoginInput := mkLoginInput {
  login_email : string;
  login_password : string
}.

(** The body of a request to the auth routes: a field is absent or a
    string. *)
Record AuthBody := mkAuthBody {
  body_email : option string;
  body_password : option string;
  body_name : option string;
  body_role : option string
}.

(** ** orderService *)



(** [where.userID] is set when [userID] is truthy. *)
Definition where_userID (userID : option ID) (o : Order) : bool :=
  match userID with
  | Some u => if bool_decide (u = "") then true else bool_decide (order_userID o = u)
  | None => true
  end.

Definition order_rows (s : DB) : list Order := (map_to_list (db_order s)).*2.

Definition order_count (where_ : Order → bool) : Tx nat :=
  λ s, Ok (length (List.filter where_ (order_rows s)), s).

(** [aggregate({ _sum: { totalAmount: true } })]: no sum over no row. *)
Definition order_aggregate_sum (where_ : Order → bool) : Tx (option Z) :=
  λ s, let rows := List.filter where_ (order_rows s) in
       Ok (match rows with
           | [] => None
           | _ => Some (foldr Z.add 0 (totalAmount <$> rows))
           end, s).

(** [Number(x) || 0], on a sum that may be [null]. *)
Definition number_or_zero (x : option Z) : Z :=
  match x with
  | Some v => if bool_decide (v = 0) then 0 else v
  | None => 0
  end.

Section MoreServices.

Variable schema : Schema.
Variable prisma_message : PrismaCode → string.

Definition getOrderById_catch (t : Thrown) : Thrown :=
  if bool_decide (thrown_message prisma_message t = "Order not found")
  then t
  else Message "Failed to retrieve order".

(** The order with its lines; the [user] and [payment] relations are
    left out. *)
Definition getOrderById (id : ID) : OpM Order :=
  catchM (await order := statement (order_findUnique id) in
          match order with
          | None => op_throwM (Raised OrderNotFound)
          | Some order => op_retM order
          end) getOrderById_catch.

Definition getOrderStatistics (userID : option ID) : OpM OrderStatistics :=
  let is_status st (o : Order) := where_userID userID o && bool_decide (status o = st) in
  catchM (await total := statement (order_count (where_userID userID)) in
          await pendingN := statement (order_count (is_status pending)) in
          await completedN := statement (order_count (is_status completed)) in
          await revenueResult := statement (order_aggregate_sum (is_status completed)) in
          op_retM (mkOrderStatistics total (number_or_zero revenueResult)
                                     pendingN completedN))
         (λ _, Message "Failed to get order statistics").

End MoreServices.

(** ** paymentService *)

Definition payment_findUnique (id : ID) : Tx (option Payment) :=
  λ s, Ok (db_payment s !! id, s).









Section MorePayments.

Variable prisma_message : PrismaCode → string.

Definition getPaymentById_catch (t : Thrown) : Thrown :=
  if bool_decide (thrown_message prisma_message t = "Payment not found")
  then t
  else Message "Failed to retrieve payment".

(** The payment row; the [order] relation is left out. *)
Definition getPaymentById (id : ID) : OpM Payment :=
  catchM (await payment := statement (payment_findUnique id) in
          match payment with
          | None => op_throwM (Raised PaymentNotFound)
          | Some payment => op_retM payment
          end) getPaymentById_catch.

Definition getPaymentByOrderId_catch (t : Thrown) : Thrown :=
  if bool_decide (thrown_message prisma_message t = "Payment not found for this order")
  then t
  else Message "Failed to retrieve payment for order".

(** The payment row with its [paymentID]. *)
Definition getPaymentByOrderId (orderID : ID) : OpM (ID * Payment) :=
  catchM (await payment := statement (payment_findUnique_orderID orderID) in
          match payment with
          | None => op_throwM (Message "Payment not found for this order")
          | Some payment => op_retM payment
          end) getPaymentByOrderId_catch.

(** [isSuccess] is the outcome of [Math.random() > 0.2], [now] the
    [new Date()].  No transaction; the catch block rethrows. *)
Definition processPayment (id : ID) (isSuccess : bool) (now : Z) : OpM Payment :=
  catchM (await payment := statement (payment_findUnique id) in
          match payment with
          | None => op_throwM (Raised PaymentNotFound)
          | Some payment =>
            if bool_decide (payment_status payment ≠ payment_processing)
            then op_throwM (Message "Payment is not in processing status")
            else
              let newStatus := if isSuccess then paid else failed in
              await updatedPayment :=
                statement (payment_update id (λ p,
                  mkPayment (payment_orderID p) newStatus (method p) (amount p)
                            (if isSuccess then Some now else paidAt p))) in
              if isSuccess
              then await _ := statement (order_update (payment_orderID payment)
                                                      (set_status completed)) in
                   op_retM updatedPayment
              else op_retM updatedPayment
          end) (λ t, t).


End MorePayments.

(** ** cartService *)

(** [delete] throws P2025 when no row has the key. *)
Definition cartBook_delete (c b : ID) : Tx unit :=
  λ s, if existsb (cartID_bookID c b) (db_cartBook s)
       then Ok ((), with_cartBook (List.filter (λ row, negb (cartID_bookID c b row))) s)
       else Err (Known P2025).

Definition cartBook_deleteMany (c : ID) : Tx unit :=
  λ s, Ok ((), with_cartBook
                 (List.filter (λ row, negb (bool_decide (cb_cartID row = c)))) s).

Section MoreCart.

Variable schema : Schema.

(** [newCartID] is the [uuidv4()] drawn when the user has no cart.
    Two statements of the global client; the catch block replaces
    every error. *)
Definition getCartByUserId (newCartID userID : ID) : OpM CartResponse :=
  catchM (await found := statement (cart_findUnique_userID userID) in
          await cart := match found with
                        | Some cart => op_retM cart
                        | None => statement (cart_create schema (mkCart newCartID userID))
                        end in
          λ s, (Returned (formatCartResponse cart (cart_books (cartID cart) s)), s))
         (λ _, Message "Failed to retrieve cart").

(** [existingItem.book] is the [book] relation of the row; reading
    [stockQuantity] of a row whose book is gone is a [TypeError]. *)
Definition updateCartItem (userID bookID : ID) (updateData : UpdateCartItemInput)
    : OpM CartResponse :=
  catchM (transactionM (
    let* cart := lift (cart_findUnique_userID userID) in
    match cart with
    | None => throwM (Raised CartNotFound)
    | Some cart =>
      let* existingItem := lift (cartBook_findUnique (cartID cart) bookID) in
      match existingItem with
      | None => throwM (Message "Item not found in cart")
      | Some existingItem =>
        let* _ :=
          match uc_quantity updateData with
          | Some quantity =>
            let* book := lift (book_findUnique (cb_bookID existingItem)) in
            match book with
            | None => throwM (Message
                "Cannot read properties of null (reading 'stockQuantity')")
            | Some book =>
              if bool_decide (quantity > stockQuantity book)
              then throwM (Raised (NotEnoughStock (stockQuantity book)))
              else if bool_decide (quantity ≤ 0)
              then lift (cartBook_delete (cartID cart) bookID)
              else lift (cartBook_update (cartID cart) bookID (λ row,
                     mkCartBook (cb_cartID row) (cb_bookID row) quantity
                                (default (isSelected row) (uc_isSelected updateData))
                                (addedAt row)))
            end
          | None =>
            match uc_isSelected updateData with
            | Some selected =>
              lift (cartBook_update (cartID cart) bookID (λ row,
                mkCartBook (cb_cartID row) (cb_bookID row) (cb_quantity row)
                           selected (addedAt row)))
            | None => retM ()
            end
          end in
        let* updatedCart := lift (cart_findUnique_cartID (cartID cart)) in
        match updatedCart with
        | None => throwM (Raised FailedToRetrieveCart)
        | Some updatedCart =>
          λ s, Returned (formatCartResponse updatedCart
                           (cart_books (cartID updatedCart) s), s)
        end
      end
    end)) (λ t, t).

Definition removeItemFromCart_catch (t : Thrown) : Thrown :=
  match t with
  | Raised (Known P2025) => Message "Item not found in cart"
  | _ => t
  end.

Definition removeItemFromCart (userID bookID : ID) : OpM CartResponse :=
  catchM (transactionM (
    let* cart := lift (cart_findUnique_userID userID) in
    match cart with
    | None => throwM (Raised CartNotFound)
    | Some cart =>
      let* _ := lift (cartBook_delete (cartID cart) bookID) in
      let* updatedCart := lift (cart_findUnique_cartID (cartID cart)) in
      match updatedCart with
      | None => throwM (Raised FailedToRetrieveCart)
      | Some updatedCart =>
        λ s, Returned (formatCartResponse updatedCart
                         (cart_books (cartID updatedCart) s), s)
      end
    end)) removeItemFromCart_catch.

(** Returns [{ message: "Cart cleared successfully" }]. *)
Definition clearCart (userID : ID) : OpM string :=
  catchM (transactionM (
    let* cart := lift (cart_findUnique_userID userID) in
    match cart with
    | None => throwM (Raised CartNotFound)
    | Some cart =>
      let* _ := lift (cartBook_deleteMany (cartID cart)) in
      retM "Cart cleared successfully"
    end)) (λ t, t).

End MoreCart.

(** ** authService *)

Definition authentication_findUnique_authID (a : ID) : Tx (option Authentication) :=
  λ s, Ok (List.find (λ row, bool_decide (authID row = a)) (db_authentication s), s).

Definition authentication_update (a : ID) (data : Authentication → Authentication)
    : Tx unit :=
  λ s, if auth_row_exists a s
       then Ok ((), with_authentication
                      (map (λ row, if bool_decide (authID row = a) then data row else row)) s)
       else Err (Known P2025).

(** The 1:1 relations of an [Authentication] row, as
    [include: { user: true, author: true, admin: true }] loads them:
    the profile rows that hold its [authID], with their keys. *)
Definition auth_user (a : ID) (s : DB) : option (ID * User) :=
  List.find (λ kv, bool_decide (user_authID kv.2 = a)) (map_to_list (db_user s)).
Definition auth_author (a : ID) (s : DB) : option (ID * Author) :=
  List.find (λ kv, bool_decide (author_authID kv.2 = a)) (map_to_list (db_author s)).
Definition auth_admin (a : ID) (s : DB) : option (ID * Admin) :=
  List.find (λ kv, bool_decide (admin_authID kv.2 = a)) (map_to_list (db_admin s)).

Definition author_findUnique (id : ID) : Tx (option Author) :=
  λ s, Ok (db_author s !! id, s).

Definition set_pass (p : string) (a : Authentication) : Authentication :=
  mkAuthentication (authID a) (email a) p (role a).

(** A string of a request body is truthy when it is there and not
    empty. *)
Definition truthy (x : option string) : bool :=
  match x with
  | Some v => negb (bool_decide (v = ""))
  | None => false
  end.

Definition parse_role (r : string) : option Role :=
  if bool_decide (r = "user") then Some role_user
  else if bool_decide (r = "author") then Some role_author
  else if bool_decide (r = "admin") then Some role_admin
  else None.

Section MoreAuth.

Variable schema : Schema.
Variable prisma_message : PrismaCode → string.
(** [bcrypt.hash(_, 12)], [bcrypt.compare] and
    [String.prototype.trim]. *)
Variable bcrypt_hash : string → string.
Variable bcrypt_compare : string → string → bool.
Variable trim : string → string.

(** The [data.user] of the response; the token is left out.  The
    catch block replaces every error. *)
Definition login (loginData : LoginInput) : OpM AuthUser :=
  catchM (
    λ s0,
    (await auth := statement (authentication_findUnique_email (login_email loginData)) in
     match auth with
     | None => op_throwM (Message "Invalid email or password")
     | Some auth =>
       if negb (bcrypt_compare (login_password loginData) (pass auth))
       then op_throwM (Message "Invalid email or password")
       else
         await profile :=
           match role auth, auth_user (authID auth) s0, auth_author (authID auth) s0,
                 auth_admin (authID auth) s0 with
           | role_user, Some u, _, _ =>
             await userInfo := statement (user_findUnique u.1) in
             op_retM (match userInfo with Some i => user_name i | None => "" end, u.1)
           | role_author, _, Some a, _ =>
             await authorInfo := statement (author_findUnique a.1) in
             op_retM (match authorInfo with Some i => author_name i | None => "" end, a.1)
           | role_admin, _, _, Some a => op_retM ("Administrator", a.1)
           | _, _, _, _ => op_retM ("", "")
           end in
         if bool_decide (profile.2 = "")
         then op_throwM (Raised UserNotFound)
         else op_retM (mkAuthUser profile.2 (email auth) profile.1 (role auth))
     end) s0)
    (λ _, Message "Login failed").

Definition changePassword (a : ID) (currentPassword newPassword : string)
    : OpM string :=
  catchM (
    await auth := statement (authentication_findUnique_authID a) in
    match auth with
    | None => op_throwM (Raised UserNotFound)
    | Some auth =>
      if negb (bcrypt_compare currentPassword (pass auth))
      then op_throwM (Message "Current password is incorrect")
      else
        let hashedNewPassword := bcrypt_hash newPassword in
        await _ := statement (authentication_update a (set_pass hashedNewPassword)) in
        op_retM "Password changed successfully"
    end)
    (λ _, Message "Failed to change password").

(** ** The auth controller

    A handler answers with a status code and, when it has one, the
    user of the service's response. *)
Definition register_handler (ids : RegisterIds) (body : AuthBody)
    : DB → (nat * option AuthUser) * DB :=
  λ s,
  match body_email body, body_password body, body_name body, body_role body with
  | Some e, Some p, Some n, Some r =>
    if negb (truthy (Some e) && truthy (Some p) && truthy (Some n) && truthy (Some r))
    then ((400%nat, None), s)
    else
      match parse_role r with
      | None => ((400%nat, None), s)
      | Some r =>
        match register schema bcrypt_hash ids (mkRegisterInput (trim e) p (trim n) r) s with
        | (Ok result, s') => ((201%nat, Some result), s')
        | (Err error, s') =>
          if includes (error_message prisma_message error) "already exists"
          then ((409%nat, None), s')
          else ((500%nat, None), s')
        end
      end
  | _, _, _, _ => ((400%nat, None), s)
  end.

Definition login_handler (body : AuthBody) : DB → (nat * option AuthUser) * DB :=
  λ s,
  match body_email body, body_password body with
  | Some e, Some p =>
    if negb (truthy (Some e) && truthy (Some p))
    then ((400%nat, None), s)
    else
      match login (mkLoginInput (trim e) p) s with
      | (Returned result, s') => ((200%nat, Some result), s')
      | (Threw error, s') =>
        if includes (thrown_message prisma_message error) "Invalid email or password"
        then ((401%nat, None), s')
        else ((500%nat, None), s')
      end
  | _, _ => ((400%nat, None), s)
  end.

End MoreAuth.

(** * Lemmas *)

(** ** Arithmetic on order lines *)

Lemma sumZ_app l1 l2 : sumZ (l1 ++ l2) = sumZ l1 + sumZ l2.
Proof. induction l1 as [|x l1 IH]; simpl; [done | rewrite IH; lia]. Qed.

Lemma qty_for_cons b l lines :
  qty_for b (l :: lines) =
  (if decide (bookID l = b) then quantity l else 0) + qty_for b lines.
Proof.
  unfold qty_for. rewrite filter_cons.
  destruct (decide (bookID l = b)); csimpl; lia.
Qed.

Lemma qty_for_nonneg b lines :
  Forall (λ l, 0 ≤ quantity l) lines → 0 ≤ qty_for b lines.
Proof.
  induction 1 as [|l lines Hl _ IH]; [done|].
  rewrite qty_for_cons. destruct (decide (bookID l = b)); lia.
Qed.

Lemma qty_for_elem b l lines :
  Forall (λ l, 0 ≤ quantity l) lines → l ∈ lines → bookID l = b →
  quantity l ≤ qty_for b lines.
Proof.
  induction 1 as [|l' lines Hl' Hall IH]; intros Hin Hb; [by apply elem_of_nil in Hin|].
  rewrite qty_for_cons. pose proof (qty_for_nonneg b _ Hall).
  apply elem_of_cons in Hin as [->|Hin].
  - rewrite decide_True by done. lia.
  - specialize (IH Hin Hb). destruct (decide (bookID l' = b)); lia.
Qed.

Lemma take_stock_0 bk : take_stock 0 bk = bk.
Proof. destruct bk; unfold take_stock; simpl; f_equal; lia. Qed.


(** ** The loop of [createOrder] *)

Lemma processItems_ok items : ∀ total obs s r s',
  processItems items total obs s = Ok (r, s') →
  ∃ lines,
    r = (total + sumZ (subTotal <$> lines), obs ++ lines) ∧
    bookID <$> lines = item_bookID <$> items ∧
    quantity <$> lines = item_quantity <$> items ∧
    Forall (line_ok s) lines ∧
    s' = with_book (λ _, db_book s') s ∧
    (∀ b, db_book s' !! b = take_stock (qty_for b lines) <$> db_book s !! b) ∧
    (∀ b bk, db_book s !! b = Some bk → qty_for b lines ≤ Z.max 0 (stockQuantity bk)).
Proof.
  induction items as [|item items IH]; intros total obs s r s' H.
  - inversion H; subst. exists []. rewrite app_nil_r. simpl.
    repeat split; try done.
    + f_equal; lia.
    + by destruct s'.
    + intros b. unfold qty_for; simpl. destruct (db_book s' !! b) as [bk|]; simpl; [|done].
      by rewrite take_stock_0.
    + intros b bk _. unfold qty_for; simpl. lia.
  - simpl in H. unfold bind at 1 in H. unfold book_findUnique in H.
    destruct (db_book s !! item_bookID item) as [book|] eqn:Hbook; [|done].
    case_bool_decide as Hstock; [done|].
    case_bool_decide as Hq; [done|].
    unfold bind, book_update in H. rewrite Hbook in H.
    apply IH in H as (lines & -> & Hids & Hqs & Hall & Hs' & Hbooks & Hbound).
    set (l0 := mkOrderBook (item_bookID item) (price book) (item_quantity item)
                            (price book * item_quantity item)).
    exists (l0 :: lines). csimpl in *.
    assert (Hprice : ∀ b bk', <[item_bookID item := mkBook (title book) (price book)
                 (stockQuantity book - item_quantity item)
                 (soldNumber book + item_quantity item)]> (db_book s) !! b = Some bk' →
              ∃ bk, db_book s !! b = Some bk ∧ price bk' = price bk).
    { intros b bk'. rewrite lookup_insert. case_decide as Hd.
      - intros [= <-]. subst b. eauto.
      - eauto. }
    repeat split.
    + f_equal; [lia|]. by rewrite <- app_assoc.
    + by rewrite Hids.
    + by rewrite Hqs.
    + constructor.
      * repeat split; simpl; [lia|]. eauto.
      * eapply Forall_impl; [exact Hall|]. intros l (? & ? & bk' & Hl & Hp).
        apply Hprice in Hl as (bk & ? & Hpp).
        repeat split; [done..|]. exists bk. split; [done | congruence].
    + rewrite Hs'. by destruct s.
    + intros b. rewrite Hbooks, qty_for_cons, lookup_insert. simpl.
      case_decide as Hd.
      * subst b. rewrite Hbook. simpl. f_equal.
        unfold take_stock; simpl. f_equal; lia.
      * done.
    + intros b bk Hb. rewrite qty_for_cons. simpl.
      case_decide as Hd.
      * subst b. rewrite Hbook in Hb. injection Hb as <-.
        specialize (Hbound (item_bookID item) _ ltac:(apply lookup_insert_eq)).
        simpl in Hbound. lia.
      * specialize (Hbound b bk). rewrite lookup_insert_ne in Hbound by done.
        specialize (Hbound Hb). lia.
Qed.

(** ** Transactions *)

Lemma transaction_err {A} (body : Tx A) s e s' :
  transaction body s = (Err e, s') → s' = s.
Proof. unfold transaction. destruct (body s) as [[a t]|e0]; congruence. Qed.

Lemma catch_transaction_err {A} (body : Tx A) h s e s' :
  catch (transaction body) h s = (Err e, s') → s' = s.
Proof.
  unfold catch. destruct (transaction body s) as [[a|e0] t] eqn:H; [done|].
  intros [= _ <-]. by apply transaction_err in H.
Qed.

Lemma catch_transaction_ok {A} (body : Tx A) h s a s' :
  catch (transaction body) h s = (Ok a, s') ↔ body s = Ok (a, s').
Proof.
  unfold catch, transaction. destruct (body s) as [[a0 t]|e0]; split; congruence.
Qed.

(** A state that differs from [s] in its books only, after a write to
    its orders. *)
Lemma with_order_frame f s s1 :
  s1 = with_book (λ _, db_book s1) s →
  with_order f s1 =
  with_order (λ _, f (db_order s)) (with_book (λ _, db_book s1) s).
Proof.
  intros H. destruct s, s1. unfold with_book, with_order in *; simpl in *.
  by injection H as -> -> -> -> -> -> -> ->.
Qed.

(** ** [createOrder] *)

Lemma createOrder_ok schema orderID orderData s resp s' :
  createOrder schema orderID orderData s = (Ok resp, s') →
  ∃ order, createOrder_post orderID orderData s resp s' order.
Proof.
  unfold createOrder. rewrite catch_transaction_ok.
  unfold bind at 1, user_findUnique.
  destruct (db_user s !! in_userID orderData) as [user|] eqn:Huser; [|done].
  destruct (List.find _ (addresses user)) as [address|] eqn:Haddr; [|done].
  apply find_some in Haddr as [Hin Ha]. apply bool_decide_eq_true in Ha.
  apply list_elem_of_In in Hin.
  destruct (in_items orderData) as [|i0 items0] eqn:Hitems; [done|].
  unfold bind at 1.
  destruct (processItems _ _ _ _) as [[[total obs] s1]|] eqn:Hloop; [|done].
  apply processItems_ok in Hloop
    as (lines & Hr & Hids & Hqs & Hall & Hs1 & Hbooks & Hbound).
  injection Hr as -> ->.
  unfold bind, order_create. simpl.
  destruct (db_order s1 !! orderID) eqn:Hfresh; [done|].
  destruct (negb (fk_holds _ (bool_decide (is_Some _)))) eqn:Hfk1; [done|].
  destruct (negb (fk_holds _ (bool_decide (Forall _ _)))) eqn:Hfk2; [done|].
  destruct (_ && _) eqn:Hkey; [done|].
  unfold ret. intros [= <- <-].
  assert (db_order s1 = db_order s) as Ho by (rewrite Hs1; done).
  eexists. exists user, address. simpl.
  repeat split; try done.
  - by rewrite Hitems.
  - by rewrite <- Ho.
  - simpl. by rewrite Hitems.
  - simpl. by rewrite Hitems.
  - exact (with_order_frame _ s s1 Hs1).
Qed.

Lemma createOrder_err schema orderID orderData s e s' :
  createOrder schema orderID orderData s = (Err e, s') → s' = s.
Proof. apply catch_transaction_err. Qed.

(** ** [cancelOrder] *)






(** ** Order total integrity *)




(** ** Rejected requests *)

Lemma line_of_item (lines : list OrderBook) (items : list OrderItemInput) item :
  bookID <$> lines = item_bookID <$> items →
  quantity <$> lines = item_quantity <$> items →
  item ∈ items →
  ∃ l, l ∈ lines ∧ bookID l = item_bookID item ∧ quantity l = item_quantity item.
Proof.
  intros Hids Hqs [i Hi]%list_elem_of_lookup.
  assert ((bookID <$> lines) !! i = Some (item_bookID item)) as Hb.
  { rewrite Hids, list_lookup_fmap, Hi. done. }
  assert ((quantity <$> lines) !! i = Some (item_quantity item)) as Hq.
  { rewrite Hqs, list_lookup_fmap, Hi. done. }
  apply list_lookup_fmap_Some in Hb as (l & Hlb & Hl).
  apply list_lookup_fmap_Some in Hq as (l' & Hlq & Hl').
  rewrite Hl in Hl'. injection Hl' as <-. exists l. split; [by eapply list_elem_of_lookup_2|].
  split; congruence.
Qed.

Lemma line_ok_nonneg s lines :
  Forall (line_ok s) lines → Forall (λ l, 0 ≤ quantity l) lines.
Proof. intros H. eapply Forall_impl; [exact H|]. intros l (? & _). simpl. lia. Qed.

Lemma createOrder_accepts schema orderID orderData s resp s' :
  createOrder schema orderID orderData s = (Ok resp, s') →
  ¬ createOrder_rejects orderData s.
Proof.
  intros [order H]%createOrder_ok.
  destruct H as (user & address & Huser & Hin & Haddr & Hitems & _ & _ & _ & Hids
                 & Hqs & Hall & _ & _ & Hbound).
  intros [Hno | [(user' & Huser' & Hno) | [Hno | Hno]]].
  - congruence.
  - rewrite Huser in Huser'. injection Huser' as <-. by apply (Hno address).
  - done.
  - apply Exists_exists in Hno as (item & Hitem & Hrej).
    destruct (line_of_item _ _ _ Hids Hqs Hitem) as (l & Hl & Hlb & Hlq).
    pose proof (proj1 (Forall_forall _ _) Hall l Hl) as (Hpos & _ & bk & Hbk & _).
    unfold item_rejected in Hrej. rewrite <- Hlb, Hbk, <- Hlq in Hrej.
    pose proof (qty_for_elem (bookID l) l _ (line_ok_nonneg _ _ Hall) Hl eq_refl).
    specialize (Hbound _ _ Hbk). lia.
Qed.

(** C3.  Whenever [createOrder] fails, the store is exactly as it was:
    no book row has changed and no order or line row has been added.
    It does fail when the user is unknown, when the address is not one
    of the user's, when the item list is empty, and when some item
    names a missing book, has a quantity of zero or less, or asks for
    more than the book's stock, wherever in the list the item is. *)
Theorem createOrder_failure_leaves_store schema orderID orderData s :
  (∀ e s', createOrder schema orderID orderData s = (Err e, s') → s' = s) ∧
  (createOrder_rejects orderData s →
   ∃ e, createOrder schema orderID orderData s = (Err e, s)).
Proof.
  split; [intros e s'; apply createOrder_err|].
  intros Hrej.
  destruct (createOrder schema orderID orderData s) as [[resp|e] s'] eqn:H.
  - by apply createOrder_accepts in H.
  - exists e. by rewrite (createOrder_err _ _ _ _ _ _ H).
Qed.

(** The insufficient-stock scenario, in a request with two items: the
    second item asks for 100 copies of a book with 3 in stock. *)
Lemma createOrder_failure_leaves_store_witness :
  ∃ e, createOrder sample_schema "order-100"
         (mkOrderCreateInput "user-001" "addr-001" "0901111111"
            [mkOrderItemInput "book-001" 2; mkOrderItemInput "book-002" 100])
         sample_db = (Err e, sample_db).
Proof.
  apply createOrder_failure_leaves_store.
  right; right; right. apply Exists_cons_tl, Exists_cons_hd.
  unfold item_rejected. cbn [item_bookID item_quantity].
  replace (db_book sample_db !! "book-002")
    with (Some (mkBook "Book Two" 120000 3 0)) by (vm_compute; reflexivity).
  right. simpl. lia.
Defined.

(** ** Stock never goes negative *)











(** ** Cancel reversibility *)





(** ** Payments *)

Lemma payment_findUnique_orderID_Some orderID s kv :
  List.find (λ kv, bool_decide (payment_orderID kv.2 = orderID))
            (map_to_list (db_payment s)) = Some kv →
  payment_for_order orderID s.
Proof.
  intros [Hin Hp]%find_some. apply bool_decide_eq_true in Hp.
  apply list_elem_of_In in Hin. destruct kv as [id p].
  apply elem_of_map_to_list in Hin. by exists id, p.
Qed.

Lemma payment_findUnique_orderID_None orderID s :
  List.find (λ kv, bool_decide (payment_orderID kv.2 = orderID))
            (map_to_list (db_payment s)) = None →
  ¬ payment_for_order orderID s.
Proof.
  intros Hnone (id & p & Hp & Ho).
  assert (In (id, p) (map_to_list (db_payment s))) as Hin.
  { apply list_elem_of_In. by apply elem_of_map_to_list. }
  pose proof (find_none _ _ Hnone (id, p) Hin) as Hf.
  simpl in Hf. by apply bool_decide_eq_false in Hf.
Qed.

Lemma createPayment_inv schema paymentID paymentData s p s' :
  createPayment schema paymentID paymentData s = (Ok p, s') →
  ∃ order,
    db_order s !! pay_orderID paymentData = Some order ∧
    ¬ payment_for_order (pay_orderID paymentData) s ∧
    pay_amount paymentData = totalAmount order ∧
    db_payment s !! paymentID = None ∧
    p = mkPayment (pay_orderID paymentData) payment_processing
                  (pay_method paymentData) (pay_amount paymentData) None ∧
    s' = with_payment (<[paymentID := p]>) s.
Proof.
  unfold createPayment. rewrite catch_transaction_ok.
  unfold bind at 1, order_findUnique.
  destruct (db_order s !! pay_orderID paymentData) as [order|] eqn:Horder; [|done].
  unfold bind, payment_findUnique_orderID.
  destruct (List.find _ _) as [kv|] eqn:Hfind; [done|].
  apply payment_findUnique_orderID_None in Hfind.
  case_bool_decide as Hamount; [done|].
  unfold payment_create.
  destruct (db_payment s !! paymentID) eqn:Hfresh; [done|].
  case_bool_decide; [done|].
  destruct (negb _); [done|].
  intros [= <- <-]. exists order. repeat split; done.
Qed.




(** ** [updatePaymentStatus] *)

Lemma updatePaymentStatus_found id st now s payment :
  db_payment s !! id = Some payment →
  updatePaymentStatus id st now s =
  let p' := updateData st now payment in
  let s1 := with_payment (<[id := p']>) s in
  if bool_decide (st = paid)
  then match db_order s !! payment_orderID payment with
       | Some order =>
         (Ok p', with_order (<[payment_orderID payment := set_status completed order]>) s1)
       | None => (Err PaymentNotFound, s1)
       end
  else (Ok p', s1).
Proof.
  intros Hp. unfold updatePaymentStatus, catch, op_bind, transaction, payment_update.
  rewrite Hp. simpl. case_bool_decide; [|done].
  unfold order_update. simpl.
  by destruct (db_order s !! payment_orderID payment).
Qed.

Lemma updatePaymentStatus_missing id st now s :
  db_payment s !! id = None →
  updatePaymentStatus id st now s = (Err PaymentNotFound, s).
Proof.
  intros Hp. unfold updatePaymentStatus, catch, op_bind, transaction, payment_update.
  by rewrite Hp.
Qed.

(** C7.  On an existing payment, [updatePaymentStatus] to [paid]
    stores the status, stamps [paidAt] with the current time and, the
    owning order being there, sets its status to [completed] and
    changes no other order.  To any other status it stores the status,
    leaves [paidAt] as it was and leaves every order as it was. *)
Theorem updatePaymentStatus_paid_stamps id st now s payment :
  db_payment s !! id = Some payment →
  (st = paid → ∀ order, db_order s !! payment_orderID payment = Some order →
     ∃ p' s', updatePaymentStatus id st now s = (Ok p', s') ∧
       db_payment s' = <[id := p']> (db_payment s) ∧
       payment_status p' = paid ∧ paidAt p' = Some now ∧
       db_order s' = <[payment_orderID payment := set_status completed order]> (db_order s) ∧
       status (set_status completed order) = completed) ∧
  (st ≠ paid →
     ∃ p' s', updatePaymentStatus id st now s = (Ok p', s') ∧
       db_payment s' = <[id := p']> (db_payment s) ∧
       payment_status p' = st ∧ paidAt p' = paidAt payment ∧
       db_order s' = db_order s).
Proof.
  intros Hp. rewrite (updatePaymentStatus_found _ _ _ _ _ Hp). simpl. split.
  - intros -> order Horder. rewrite Horder. simpl.
    eexists _, _. split; [done|]. repeat split; simpl.
  - intros Hst. rewrite bool_decide_eq_false_2 by done.
    eexists _, _. split; [done|]. repeat split; simpl.
    by rewrite bool_decide_eq_false_2.
Qed.

Lemma updatePaymentStatus_paid_stamps_witness :
  ∃ p' s', updatePaymentStatus "pay-100" paid 42 sample_db_paying = (Ok p', s') ∧
    paidAt p' = Some 42 ∧
    status <$> db_order s' !! "order-100" = Some completed.
Proof.
  destruct (proj1 (updatePaymentStatus_paid_stamps "pay-100" paid 42 sample_db_paying
              (mkPayment "order-100" payment_processing cod 200000 None)
              ltac:(vm_compute; reflexivity)) eq_refl sample_order_row
              ltac:(vm_compute; reflexivity))
    as (p' & s' & H & _ & _ & Hat & Ho & _).
  exists p', s'. split; [exact H|]. split; [exact Hat|].
  rewrite Ho. simpl. by rewrite lookup_insert_eq.
Defined.

(** C10.  [updatePaymentStatus] fails with "Payment not found" on a
    missing payment and changes nothing.  On an existing payment whose
    order exists it commits whatever status the payment has and
    whatever status is asked for, and the stored status is the one
    asked for; a failed payment marked [paid] gets [paidAt] and its
    order becomes [completed].  In a store where every payment's order
    exists, a missing payment is the only cause of failure. *)
Theorem updatePaymentStatus_any_transition id st now s :
  (db_payment s !! id = None →
   updatePaymentStatus id st now s = (Err PaymentNotFound, s)) ∧
  (∀ payment order,
     db_payment s !! id = Some payment →
     db_order s !! payment_orderID payment = Some order →
     ∃ p' s', updatePaymentStatus id st now s = (Ok p', s') ∧
       db_payment s' !! id = Some p' ∧ payment_status p' = st ∧
       (payment_status payment = failed → st = paid →
        paidAt p' = Some now ∧
        status <$> db_order s' !! payment_orderID payment = Some completed)) ∧
  (payment_order_exists s →
   ∀ e s', updatePaymentStatus id st now s = (Err e, s') →
           db_payment s !! id = None).
Proof.
  split; [apply updatePaymentStatus_missing|]. split.
  - intros payment order Hp Horder.
    rewrite (updatePaymentStatus_found _ _ _ _ _ Hp). simpl. rewrite Horder.
    case_bool_decide as Hst; eexists _, _; (split; [done|]); simpl;
      (split; [by rewrite lookup_insert_eq|]); (split; [done|]).
    + intros _ _. rewrite bool_decide_eq_true_2 by done.
      by rewrite lookup_insert_eq.
    + done.
  - intros Hfk e s'. destruct (db_payment s !! id) as [payment|] eqn:Hp; [|done].
    rewrite (updatePaymentStatus_found _ _ _ _ _ Hp). simpl.
    destruct (Hfk _ _ Hp) as [order Horder]. rewrite Horder.
    by case_bool_decide.
Qed.

(** A failed payment is marked paid again. *)
Lemma updatePaymentStatus_any_transition_witness :
  ∃ p' s', updatePaymentStatus "pay-100" paid 42 sample_db_failed = (Ok p', s') ∧
    payment_status p' = paid ∧ paidAt p' = Some 42 ∧
    status <$> db_order s' !! "order-100" = Some completed.
Proof.
  destruct (proj1 (proj2 (updatePaymentStatus_any_transition "pay-100" paid 42
              sample_db_failed))
              (mkPayment "order-100" failed cod 200000 None) sample_order_row
              ltac:(vm_compute; reflexivity) ltac:(vm_compute; reflexivity))
    as (p' & s' & H & _ & Hst & Hpaid).
  destruct (Hpaid eq_refl eq_refl) as [Hat Ho].
  exists p', s'. done.
Defined.

(** ** Cart items *)

Lemma existsb_find {A} (f : A → bool) (l : list A) :
  existsb f l = match List.find f l with Some _ => true | None => false end.
Proof. induction l as [|x l IH]; simpl; [done|]. by destruct (f x). Qed.

Lemma find_elem_of {A} (f : A → bool) (l : list A) x :
  x ∈ l → f x = true → is_Some (List.find f l).
Proof.
  intros Hin Hf. destruct (List.find f l) eqn:H; [done|].
  apply list_elem_of_In in Hin. by rewrite (find_none _ _ H x Hin) in Hf.
Qed.

Lemma cartID_bookID_key c b row :
  cartID_bookID c b row = bool_decide (key_is c b row).
Proof.
  unfold cartID_bookID.
  destruct (bool_decide (cb_cartID row = c)) eqn:Hc,
           (bool_decide (cb_bookID row = b)) eqn:Hb; simpl; symmetry.
  - apply bool_decide_eq_true_2.
    split; [exact (bool_decide_eq_true_1 _ Hc) | exact (bool_decide_eq_true_1 _ Hb)].
  - apply bool_decide_eq_false_2. intros [_ ?]. by apply (bool_decide_eq_false_1 _ Hb).
  - apply bool_decide_eq_false_2. intros [? _]. by apply (bool_decide_eq_false_1 _ Hc).
  - apply bool_decide_eq_false_2. intros [? _]. by apply (bool_decide_eq_false_1 _ Hc).
Qed.

Lemma find_rows c b rows :
  List.find (cartID_bookID c b) rows = head (filter (key_is c b) rows).
Proof.
  induction rows as [|row rows IH]; simpl; [done|].
  rewrite filter_cons, cartID_bookID_key.
  destruct (decide (key_is c b row)).
  - by rewrite bool_decide_eq_true_2.
  - by rewrite bool_decide_eq_false_2.
Qed.

(** An update that keeps the key of every row. *)
Lemma filter_key_map c b (upd : CartBook → CartBook) rows :
  (∀ row, cb_cartID (upd row) = cb_cartID row ∧ cb_bookID (upd row) = cb_bookID row) →
  filter (key_is c b) (map upd rows) = map upd (filter (key_is c b) rows).
Proof.
  intros Hupd. induction rows as [|row rows IH]; simpl; [done|].
  rewrite !filter_cons. destruct (Hupd row) as [Hc Hb].
  destruct (decide (key_is c b row)) as [Hk|Hk].
  - rewrite decide_True by (unfold key_is in *; by rewrite Hc, Hb).
    simpl. by rewrite IH.
  - rewrite decide_False by (unfold key_is in *; by rewrite Hc, Hb). done.
Qed.

Lemma map_id_on {A} (f : A → A) (l : list A) :
  (∀ x, x ∈ l → f x = x) → map f l = l.
Proof.
  induction l as [|x l IH]; intros H; simpl; [done|].
  rewrite H by apply list_elem_of_here.
  rewrite IH; [done|]. intros y Hy. apply H. by apply list_elem_of_further.
Qed.

Section cart_rows.
Context (c b : ID) (q : Z) (selected : bool) (now : Z) (rows : list CartBook).




End cart_rows.

Lemma addItemToCart_unfold schema newCartID now userID itemData :
  addItemToCart schema newCartID now userID itemData =
  catch (transaction (
    let! found := cart_findUnique_userID userID in
    let! cart := match found with
                 | Some cart => ret cart
                 | None => cart_create schema (mkCart newCartID userID)
                 end in
    addItemToCart_rest schema now itemData cart)) addItemToCart_catch.
Proof. reflexivity. Qed.


Lemma addItemToCart_rest_ok schema now itemData cart s1 bk :
  cart ∈ db_cart s1 →
  db_book s1 !! ci_bookID itemData = Some bk →
  ci_quantity itemData ≤ stockQuantity bk →
  ∃ resp, addItemToCart_rest schema now itemData cart s1
          = Ok (resp, with_cartBook
                        (cart_rows_after (cartID cart) (ci_bookID itemData)
                           (ci_quantity itemData)
                           (default true (ci_isSelected itemData)) now) s1).
Proof.
  intros Hcart Hbk Hq.
  assert (is_Some (List.find (λ c, bool_decide (cartID c = cartID cart)) (db_cart s1)))
    as [updatedCart Hupdated].
  { apply (find_elem_of _ _ cart Hcart). by apply bool_decide_eq_true_2. }
  unfold addItemToCart_rest, bind at 1, book_findUnique. rewrite Hbk.
  rewrite bool_decide_eq_false_2 by lia.
  unfold bind at 1, cartBook_findUnique, cart_rows_after, with_cartBook.
  destruct (List.find _ (db_cartBook s1)) as [existingItem|] eqn:Hfind.
  - unfold bind at 1, cartBook_update. rewrite existsb_find, Hfind.
    unfold bind, cart_findUnique_cartID. simpl. rewrite Hupdated. by eexists.
  - unfold bind at 1, cartBook_create. simpl. rewrite existsb_find, Hfind.
    rewrite existsb_find, Hupdated. unfold fk_holds.
    rewrite bool_decide_eq_true_2 by done.
    unfold bind, cart_findUnique_cartID.
    destruct (relationMode schema); simpl; rewrite Hupdated; by eexists.
Qed.








(** ** Registration *)

(** An email that is registered: [register] fails, with the generic
    "Registration failed" that its catch block puts in place of "Email
    already exists", and the store is as it was. *)
Lemma register_existing_email schema hash ids userData s a :
  a ∈ db_authentication s → email a = reg_email userData →
  register schema hash ids userData s = (Err RegistrationFailed, s).
Proof.
  intros Hin Hemail.
  destruct (find_elem_of (λ a, bool_decide (email a = reg_email userData)) _ a Hin)
    as [found Hfound]; [by apply bool_decide_eq_true_2|].
  unfold register, catch, transaction2, bind2, in_tx, authentication_findUnique_email.
  by rewrite Hfound.
Qed.

(** C5, on the code.  One registration of a [user] on the empty store,
    with four distinct uuids.
    - Relations emulated by the client: the call returns; the
      [Authentication] row and the [User] row are there, the user under
      the key that [userFactory.createUser] drew; the [Cart] row holds
      the [userID] local of [register], which is the key of no user.
    - Relations as foreign keys: [userFactory.createUser] writes
      through the global client, which does not see the
      [Authentication] row of the open transaction; the call fails and
      nothing is stored.
    In neither case does a cart of the created user exist. *)
Theorem register_cart_not_of_created_user (hash : string → string) :
  (let r := register emulated_schema hash sample_ids sample_registration empty_db in
   r.1 = Ok (mkAuthUser "user-100" "bob@example.com" "Bob" role_user) ∧
   db_authentication r.2
   = [mkAuthentication "auth-100" "bob@example.com" (hash "secret") role_user] ∧
   db_user r.2 = {[ "user-200" := mkUser "auth-100" "Bob" [] ]} ∧
   db_cart r.2 = [mkCart "cart-100" "user-100"] ∧
   db_user r.2 !! "user-100" = None) ∧
  register sample_schema hash sample_ids sample_registration empty_db
  = (Err RegistrationFailed, empty_db).
Proof. split; [repeat split|]; reflexivity. Qed.

(** The profile row is outside the transaction: when the callback
    throws after [userFactory.createUser] has returned (here the cart
    key is taken), the [Authentication] row is rolled back and the
    [User] row stays. *)
Lemma register_profile_survives_rollback (hash : string → string) :
  let r := register emulated_schema hash sample_ids sample_registration taken_cart_db in
  r.1 = Err RegistrationFailed ∧
  db_authentication r.2 = db_authentication taken_cart_db ∧
  db_user r.2 = <[ "user-200" := mkUser "auth-100" "Bob" [] ]> (db_user taken_cart_db).
Proof. repeat split; reflexivity. Qed.

(** Registering the same email twice: the second call fails and one
    [Authentication] row has the email. *)
Lemma register_twice (hash : string → string) :
  let s1 := (register emulated_schema hash sample_ids sample_registration empty_db).2 in
  let r := register emulated_schema hash
             (mkRegisterIds "auth-101" "user-101" "user-201" "cart-101")
             sample_registration s1 in
  r.1 = Err RegistrationFailed ∧ r.2 = s1 ∧
  length (filter (λ a, email a = "bob@example.com") (db_authentication r.2)) = 1%nat.
Proof. repeat split; reflexivity. Qed.

Lemma existsb_orb_false {A} (f g : A → bool) (l : list A) :
  existsb (λ x, f x || g x) l = false → existsb f l = false.
Proof.
  induction l as [|x l IH]; simpl; [done|].
  intros [[Hf _]%orb_false_iff Hl]%orb_false_iff. by rewrite Hf, IH.
Qed.

(** With relations as foreign keys no registration commits, whatever
    the role: the profile row cannot refer to an [Authentication] row
    that only the open transaction has. *)
Lemma register_foreign_keys_fails schema hash ids userData s :
  relationMode schema = foreignKeys →
  register schema hash ids userData s = (Err RegistrationFailed, s).
Proof.
  intros Hmode.
  unfold register, catch, transaction2, bind2 at 1, in_tx, authentication_findUnique_email.
  destruct (List.find _ (db_authentication s)); [done|].
  unfold bind2 at 1, authentication_create. simpl.
  destruct (existsb _ (db_authentication s)) eqn:Hfresh; [done|].
  apply existsb_orb_false in Hfresh.
  assert (∀ o : option Error,
            (if negb (fk_holds schema (auth_row_exists (gen_authID ids) s))
             then Some (Known P2003) else o) = Some (Known P2003)) as Hfk.
  { intros o. unfold fk_holds, auth_row_exists. by rewrite Hmode, Hfresh. }
  unfold bind2 at 1.
  destruct (reg_role userData); simpl; unfold bind2, on_global; simpl.
  - destruct (db_user s !! gen_profileID ids); [done|].
    case_bool_decide; [done|]. by rewrite Hfk.
  - destruct (db_author s !! gen_profileID ids); [done|].
    case_bool_decide; [done|]. by rewrite Hfk.
  - destruct (db_admin s !! gen_profileID ids); [done|].
    case_bool_decide; [done|]. by rewrite Hfk.
Qed.

(** With relations emulated by the client, a committed registration
    of a [user] has put the user under the key of the factory and the
    cart under the [userID] local of [register]. *)
Lemma register_user_rows schema hash ids userData s u s' :
  relationMode schema = prismaRelations →
  reg_role userData = role_user →
  register schema hash ids userData s = (Ok u, s') →
  au_id u = gen_userID ids ∧
  db_user s' = <[gen_profileID ids := mkUser (gen_authID ids) (reg_name userData) []]>
                 (db_user s) ∧
  db_cart s' = db_cart s ++ [mkCart (gen_cartID ids) (gen_userID ids)] ∧
  (gen_userID ids ≠ gen_profileID ids → db_user s !! gen_userID ids = None →
   db_user s' !! gen_userID ids = None).
Proof.
  intros Hmode Hrole.
  unfold register, catch, transaction2, bind2 at 1, in_tx, authentication_findUnique_email.
  destruct (List.find _ (db_authentication s)); [done|].
  unfold bind2 at 1, authentication_create. simpl.
  destruct (existsb _ (db_authentication s)); [done|].
  unfold bind2 at 1. rewrite Hrole. unfold bind2 at 1, on_global. simpl.
  destruct (db_user s !! gen_profileID ids); [done|].
  case_bool_decide; [done|].
  unfold bind2, cart_create, fk_holds. rewrite Hmode. simpl.
  destruct (existsb _ (db_cart s)); [done|]. simpl.
  intros [= <- <-]. simpl. repeat split; try done.
  intros Hne Hnone. by rewrite lookup_insert_ne.
Qed.

(** * Properties of the other functions *)

(** ** [updateOrderStatus] *)






(** ** [getOrderById] and [getOrderStatistics] *)

Lemma createOrder_row schema id orderData s resp s' :
  createOrder schema id orderData s = (Ok resp, s') →
  ∃ order,
    resp = formatOrderResponse id order ∧
    status order = pending ∧ order_userID order = in_userID orderData ∧
    db_order s !! id = None ∧
    db_order s' = <[id := order]> (db_order s) ∧
    db_payment s' = db_payment s.
Proof.
  intros [order H]%createOrder_ok.
  destruct H as (? & ? & _ & _ & _ & _ & Hfresh & Ho & -> & _ & _ & _ & Hs1 & _ & _).
  exists order. repeat split; try done.
  - by rewrite Ho.
  - by rewrite Ho.
  - exact (f_equal db_order Hs1).
  - exact (f_equal db_payment Hs1).
Qed.

Lemma getOrderById_eq pm id s :
  getOrderById pm id s =
  match db_order s !! id with
  | Some order => (Returned order, s)
  | None => (Threw (Raised OrderNotFound), s)
  end.
Proof.
  unfold getOrderById, catchM, op_bindM, statement, transactionM, lift, order_findUnique.
  by destruct (db_order s !! id).
Qed.

(** X3.  [getOrderById] never changes the store, and throws "Order
    not found" for an unknown key.  After a committed [createOrder] it
    returns the order row that was written: formatted, it is the
    response that [createOrder] gave. *)
Theorem getOrderById_after_createOrder pm id s :
  (getOrderById pm id s).2 = s ∧
  (db_order s !! id = None →
   getOrderById pm id s = (Threw (Raised OrderNotFound), s)) ∧
  (∀ schema orderData s0 resp,
     createOrder schema id orderData s0 = (Ok resp, s) →
     ∃ order, getOrderById pm id s = (Returned order, s) ∧
       formatOrderResponse id order = resp ∧ status order = pending).
Proof.
  rewrite getOrderById_eq. split; [by destruct (db_order s !! id)|]. split.
  - by intros ->.
  - intros schema orderData s0 resp (order & -> & Hst & _ & _ & Hrow & _)%createOrder_row.
    exists order. by rewrite Hrow, lookup_insert_eq.
Qed.

Lemma getOrderById_after_createOrder_witness :
  ∃ order, getOrderById (λ _, "") "order-100" sample_db_ordered
           = (Returned order, sample_db_ordered) ∧
    formatOrderResponse "order-100" order
    = formatOrderResponse "order-100" sample_order_row.
Proof.
  destruct (proj2 (proj2 (getOrderById_after_createOrder (λ _, "") "order-100"
              sample_db_ordered)) sample_schema sample_order sample_db
              (formatOrderResponse "order-100" sample_order_row)
              ltac:(vm_compute; reflexivity))
    as (order & H & Hf & _).
  by exists order.
Defined.

(** Counting and summing do not depend on the order of the rows. *)
Lemma filter_length_Permutation {A} (f : A → bool) (l1 l2 : list A) :
  l1 ≡ₚ l2 → length (List.filter f l1) = length (List.filter f l2).
Proof.
  induction 1 as [|x l1 l2 _ IH|x y l|l1 l2 l3 _ IH1 _ IH2]; simpl.
  - done.
  - destruct (f x); simpl; by rewrite IH.
  - by destruct (f x), (f y).
  - congruence.
Qed.

Lemma filter_sum_Permutation {A} (f : A → bool) (g : A → Z) (l1 l2 : list A) :
  l1 ≡ₚ l2 →
  foldr Z.add 0 (g <$> List.filter f l1) = foldr Z.add 0 (g <$> List.filter f l2).
Proof.
  induction 1 as [|x l1 l2 _ IH|x y l|l1 l2 l3 _ IH1 _ IH2]; simpl.
  - done.
  - destruct (f x); csimpl; by rewrite IH.
  - destruct (f x), (f y); csimpl; lia.
  - congruence.
Qed.


(** [Number(sum) || 0] of the sum of the selected rows is their sum. *)
Lemma number_or_zero_sum {A} (g : A → Z) (rows : list A) :
  number_or_zero (match rows with
                  | [] => None
                  | _ => Some (foldr Z.add 0 (g <$> rows))
                  end) = foldr Z.add 0 (g <$> rows).
Proof.
  destruct rows as [|x rows]; [done|]. unfold number_or_zero.
  case_bool_decide as H; [by rewrite H | done].
Qed.

Lemma getOrderStatistics_eq userID s :
  getOrderStatistics userID s =
  (Returned (mkOrderStatistics
     (length (List.filter (where_userID userID) (order_rows s)))
     (foldr Z.add 0 (totalAmount <$>
        List.filter (λ o, where_userID userID o && bool_decide (status o = completed))
                    (order_rows s)))
     (length (List.filter (λ o, where_userID userID o && bool_decide (status o = pending))
                          (order_rows s)))
     (length (List.filter (λ o, where_userID userID o && bool_decide (status o = completed))
                          (order_rows s)))), s).
Proof.
  unfold getOrderStatistics, catchM, op_bindM, statement, transactionM, lift,
    order_count, order_aggregate_sum, op_retM. simpl.
  by rewrite number_or_zero_sum.
Qed.


Lemma order_rows_insert id order s s' :
  db_order s !! id = None → db_order s' = <[id := order]> (db_order s) →
  order_rows s' ≡ₚ order :: order_rows s.
Proof.
  intros Hnone Hs'. unfold order_rows. rewrite Hs'.
  by rewrite map_to_list_insert.
Qed.

(** X5.  A committed [createOrder] adds one to the total and to the
    pending orders of the statistics, overall and for the user who
    ordered, and changes neither the completed orders nor the
    revenue. *)
Theorem createOrder_in_statistics schema id orderData s resp s' userID st :
  createOrder schema id orderData s = (Ok resp, s') →
  userID = None ∨ userID = Some (in_userID orderData) →
  getOrderStatistics userID s = (Returned st, s) →
  getOrderStatistics userID s'
  = (Returned (mkOrderStatistics (S (totalOrders st)) (totalRevenue st)
                                 (S (pendingOrders st)) (completedOrders st)), s').
Proof.
  intros (order & _ & Hst & Hu & Hfresh & Hrow & _)%createOrder_row Huser.
  rewrite !getOrderStatistics_eq. intros [= <-]. simpl.
  pose proof (order_rows_insert _ _ _ _ Hfresh Hrow) as Hperm.
  assert (where_userID userID order = true) as Hhit.
  { destruct Huser as [-> | ->]; [done|]. simpl.
    case_bool_decide; [done|]. by apply bool_decide_eq_true_2. }
  rewrite !(filter_length_Permutation _ _ _ Hperm).
  rewrite (filter_sum_Permutation _ _ _ _ Hperm). simpl.
  rewrite Hhit, Hst. simpl. done.
Qed.

Lemma createOrder_in_statistics_witness :
  getOrderStatistics (Some "user-001") sample_db_ordered
  = (Returned (mkOrderStatistics 1 0 1 0), sample_db_ordered).
Proof.
  apply (createOrder_in_statistics sample_schema "order-100" sample_order
           sample_db (formatOrderResponse "order-100" sample_order_row)
           sample_db_ordered (Some "user-001") (mkOrderStatistics 0 0 0 0)).
  - vm_compute. reflexivity.
  - by right.
  - vm_compute. reflexivity.
Defined.

(** ** [processPayment] *)

Lemma processPayment_found id ok now s payment :
  db_payment s !! id = Some payment →
  processPayment id ok now s =
  if bool_decide (payment_status payment ≠ payment_processing)
  then (Threw (Message "Payment is not in processing status"), s)
  else
    let p' := mkPayment (payment_orderID payment) (if ok then paid else failed)
                        (method payment) (amount payment)
                        (if ok then Some now else paidAt payment) in
    let s1 := with_payment (<[id := p']>) s in
    if ok
    then match db_order s !! payment_orderID payment with
         | Some order =>
           (Returned p',
            with_order (<[payment_orderID payment := set_status completed order]>) s1)
         | None => (Threw (Raised (Known P2025)), s1)
         end
    else (Returned p', s1).
Proof.
  intros Hp. unfold processPayment, catchM, op_bindM at 1, statement, transactionM, lift,
    payment_findUnique. rewrite Hp. case_bool_decide; [done|].
  unfold op_bindM at 1, payment_update. rewrite Hp. simpl.
  destruct ok; [|done].
  unfold op_bindM, order_update. simpl.
  by destruct (db_order s !! payment_orderID payment).
Qed.



(** X7.  On a payment in status [processing], [processPayment] does
    what [updatePaymentStatus] does with [paid] when the draw
    succeeds and with [failed] when it does not: the two leave the
    same store, and return the same payment when they return. *)
Theorem processPayment_as_updatePaymentStatus id (ok : bool) now s payment :
  db_payment s !! id = Some payment →
  payment_status payment = payment_processing →
  let st := if ok then paid else failed in
  (processPayment id ok now s).2 = (updatePaymentStatus id st now s).2 ∧
  ∀ p, (processPayment id ok now s).1 = Returned p
       ↔ (updatePaymentStatus id st now s).1 = Ok p.
Proof.
  intros Hp Hst st. subst st.
  rewrite (processPayment_found _ _ _ _ _ Hp), (updatePaymentStatus_found _ _ _ _ _ Hp).
  rewrite bool_decide_eq_false_2 by (by intros ?). unfold updateData.
  destruct ok; simpl.
  - destruct (db_order s !! payment_orderID payment); simpl.
    + split; [done|]. intros p. split; congruence.
    + split; [done|]. intros p. split; discriminate.
  - split; [done|]. intros p. split; congruence.
Qed.

Lemma processPayment_as_updatePaymentStatus_witness :
  (processPayment "pay-100" true 42 sample_db_paying).2
  = (updatePaymentStatus "pay-100" paid 42 sample_db_paying).2.
Proof.
  apply (processPayment_as_updatePaymentStatus "pay-100" true 42 sample_db_paying
           (mkPayment "order-100" payment_processing cod 200000 None)).
  - vm_compute. reflexivity.
  - reflexivity.
Defined.

(** ** Reading payments back *)

Lemma createPayment_ok schema paymentID paymentData s order :
  db_order s !! pay_orderID paymentData = Some order →
  ¬ payment_for_order (pay_orderID paymentData) s →
  pay_amount paymentData = totalAmount order →
  db_payment s !! paymentID = None →
  createPayment schema paymentID paymentData s =
  (Ok (mkPayment (pay_orderID paymentData) payment_processing
                 (pay_method paymentData) (pay_amount paymentData) None),
   with_payment (<[paymentID :=
      mkPayment (pay_orderID paymentData) payment_processing
                (pay_method paymentData) (pay_amount paymentData) None]>) s).
Proof.
  intros Horder Hnopay Hamount Hfresh.
  destruct (createPayment schema paymentID paymentData s) as [[p|e] s'] eqn:H.
  - apply createPayment_inv in H as (_ & _ & _ & _ & _ & -> & ->). done.
  - exfalso. revert H.
    unfold createPayment, catch, transaction, bind at 1, order_findUnique.
    rewrite Horder. unfold bind, payment_findUnique_orderID.
    destruct (List.find _ _) as [kv|] eqn:Hfind.
    { by apply payment_findUnique_orderID_Some in Hfind. }
    rewrite bool_decide_eq_false_2 by (by intros ?).
    unfold payment_create. rewrite Hfresh.
    rewrite bool_decide_eq_false_2 by done. simpl.
    unfold fk_holds. rewrite Horder.
    by destruct (relationMode schema).
Qed.

Lemma getPaymentById_eq pm id s :
  getPaymentById pm id s =
  match db_payment s !! id with
  | Some payment => (Returned payment, s)
  | None => (Threw (Raised PaymentNotFound), s)
  end.
Proof.
  unfold getPaymentById, catchM, op_bindM, statement, transactionM, lift,
    payment_findUnique.
  by destruct (db_payment s !! id).
Qed.

Lemma getPaymentByOrderId_eq pm orderID s :
  getPaymentByOrderId pm orderID s =
  match List.find (λ kv, bool_decide (payment_orderID kv.2 = orderID))
                  (map_to_list (db_payment s)) with
  | Some payment => (Returned payment, s)
  | None => (Threw (Message "Payment not found for this order"), s)
  end.
Proof.
  unfold getPaymentByOrderId, catchM, op_bindM, statement, transactionM, lift,
    payment_findUnique_orderID.
  by destruct (List.find _ _).
Qed.

(** X8.  The two reads never change the store.  Before a payment
    exists for an order, [getPaymentByOrderId] throws "Payment not
    found for this order".  After a committed [createPayment],
    [getPaymentById] under the new key and [getPaymentByOrderId] under
    the order's key both return the payment that was created. *)
Theorem createPayment_then_read pm schema paymentID paymentData s p s' :
  createPayment schema paymentID paymentData s = (Ok p, s') →
  getPaymentByOrderId pm (pay_orderID paymentData) s
  = (Threw (Message "Payment not found for this order"), s) ∧
  getPaymentById pm paymentID s' = (Returned p, s') ∧
  getPaymentByOrderId pm (pay_orderID paymentData) s' = (Returned (paymentID, p), s').
Proof.
  intros (order & _ & Hnopay & _ & Hfresh & Hp & ->)%createPayment_inv.
  rewrite getPaymentById_eq, !getPaymentByOrderId_eq. simpl. split; [|split].
  - destruct (List.find _ _) as [kv|] eqn:Hfind; [|done].
    by apply payment_findUnique_orderID_Some in Hfind.
  - by rewrite lookup_insert_eq.
  - destruct (List.find _ (map_to_list (<[paymentID:=p]> (db_payment s))))
      as [[id q]|] eqn:Hfind.
    + apply find_some in Hfind as [Hin Hq]. apply bool_decide_eq_true_1 in Hq.
      apply list_elem_of_In, elem_of_map_to_list in Hin. simpl in Hq.
      rewrite lookup_insert in Hin. case_decide as Hid.
      * by injection Hin as <-; subst.
      * exfalso. apply Hnopay. by exists id, q.
    + exfalso.
      assert (In (paymentID, p) (map_to_list (<[paymentID:=p]> (db_payment s)))) as Hin.
      { apply list_elem_of_In, elem_of_map_to_list, lookup_insert_eq. }
      pose proof (find_none _ _ Hfind _ Hin) as Hf. simpl in Hf.
      apply bool_decide_eq_false_1 in Hf. apply Hf. by rewrite Hp.
Qed.

Lemma createPayment_then_read_witness :
  getPaymentByOrderId (λ _, "") "order-100" sample_db_paying
  = (Returned ("pay-100", mkPayment "order-100" payment_processing cod 200000 None),
     sample_db_paying).
Proof.
  apply (createPayment_then_read (λ _, "") sample_schema "pay-100" sample_payment
           sample_db_ordered _ sample_db_paying).
  vm_compute. reflexivity.
Defined.

(** ** A paid order, and a payment for a cancelled order *)

(** X9.  Once [updatePaymentStatus] has marked a payment [paid], its
    order is [completed]: [cancelOrder] on it fails with "Only pending
    orders can be canceled" and changes nothing, so the copies stay
    out of stock. *)
Theorem paid_order_is_not_cancelled id now s payment order :
  db_payment s !! id = Some payment →
  db_order s !! payment_orderID payment = Some order →
  ∃ p s', updatePaymentStatus id paid now s = (Ok p, s') ∧
    db_book s' = db_book s ∧
    cancelOrder (payment_orderID payment) s' = (Err OnlyPendingCanBeCanceled, s').
Proof.
  intros Hp Ho. rewrite (updatePaymentStatus_found _ _ _ _ _ Hp). simpl. rewrite Ho.
  eexists _, _. split; [done|]. split; [done|].
  unfold cancelOrder, transaction, bind, order_findUnique. simpl.
  by rewrite lookup_insert_eq.
Qed.

Lemma paid_order_is_not_cancelled_witness :
  ∃ p s', updatePaymentStatus "pay-100" paid 42 sample_db_paying = (Ok p, s') ∧
    cancelOrder "order-100" s' = (Err OnlyPendingCanBeCanceled, s').
Proof.
  destruct (paid_order_is_not_cancelled "pay-100" 42 sample_db_paying
              (mkPayment "order-100" payment_processing cod 200000 None)
              sample_order_row ltac:(vm_compute; reflexivity)
              ltac:(vm_compute; reflexivity))
    as (p & s' & H & _ & Hc).
  by exists p, s'.
Defined.

(** X10.  [createPayment] does not look at the status of the order,
    and [updatePaymentStatus] writes [completed] over any status.  A
    payment of the right amount for a cancelled order is created, and
    marking it [paid] makes the order [completed], while no book
    changes: the copies that [cancelOrder] gave back stay in stock. *)
Theorem canceled_order_can_be_paid schema paymentID m now id s order :
  db_order s !! id = Some order → status order = canceled →
  ¬ payment_for_order id s → db_payment s !! paymentID = None →
  ∃ p s1 p' s2,
    createPayment schema paymentID (mkPaymentCreateInput id m (totalAmount order)) s
    = (Ok p, s1) ∧
    updatePaymentStatus paymentID paid now s1 = (Ok p', s2) ∧
    status <$> db_order s2 !! id = Some completed ∧
    db_book s2 = db_book s.
Proof.
  intros Ho Hst Hnopay Hfresh.
  pose proof (createPayment_ok schema paymentID (mkPaymentCreateInput id m (totalAmount order))
                s order Ho Hnopay eq_refl Hfresh) as H1. simpl in H1.
  eexists _, _. eexists _, _. split; [exact H1|].
  erewrite updatePaymentStatus_found; [|simpl; apply lookup_insert_eq].
  simpl. rewrite Ho. split; [done|]. simpl. by rewrite lookup_insert_eq.
Qed.

(** The sample order, cancelled and then paid for. *)
Lemma canceled_order_can_be_paid_witness :
  ∃ p s1 p' s2,
    createPayment sample_schema "pay-100" sample_payment
      (cancelOrder "order-100" sample_db_ordered).2 = (Ok p, s1) ∧
    updatePaymentStatus "pay-100" paid 42 s1 = (Ok p', s2) ∧
    status <$> db_order s2 !! "order-100" = Some completed ∧
    db_book s2 !! "book-001" = Some (mkBook "Book One" 100000 50 7).
Proof.
  destruct (canceled_order_can_be_paid sample_schema "pay-100" cod 42 "order-100"
              (cancelOrder "order-100" sample_db_ordered).2
              (set_status canceled sample_order_row))
    as (p & s1 & p' & s2 & H1 & H2 & Hst & Hb).
  - vm_compute. reflexivity.
  - reflexivity.
  - intros (id & q & Hq & _). vm_compute in Hq. discriminate.
  - vm_compute. reflexivity.
  - exists p, s1, p', s2. split; [exact H1|]. split; [exact H2|]. split; [exact Hst|].
    rewrite Hb. vm_compute. reflexivity.
Defined.

(** ** [getPaymentStatistics] *)






(** ** Statistics after a payment *)




(** ** [getCartByUserId] *)

Lemma find_app_new {A} (f : A → bool) (l : list A) x :
  List.find f l = None → f x = true → List.find f (l ++ [x]) = Some x.
Proof.
  induction l as [|y l IH]; simpl; intros Hnone Hx; [by rewrite Hx|].
  destruct (f y); [done|]. by apply IH.
Qed.

(** X13.  For a user who has a cart, or can be given one,
    [getCartByUserId] returns the user's cart, creating it when there
    is none.  A second call, whatever key it would draw, returns the
    same response and changes nothing, so it creates no second cart.
    Every failure is thrown as "Failed to retrieve cart" and leaves
    the store as it was. *)
Theorem getCartByUserId_idempotent schema newCartID userID s :
  (cart_ready newCartID userID s →
   ∃ resp s1, getCartByUserId schema newCartID userID s = (Returned resp, s1) ∧
     cr_cartID resp = cartID (cart_used newCartID userID s) ∧
     db_cart s1 = match List.find (λ c, bool_decide (cart_userID c = userID))
                                  (db_cart s) with
                  | Some _ => db_cart s
                  | None => db_cart s ++ [mkCart newCartID userID]
                  end ∧
     db_cartBook s1 = db_cartBook s ∧
     ∀ otherID, getCartByUserId schema otherID userID s1 = (Returned resp, s1)) ∧
  (∀ t s', getCartByUserId schema newCartID userID s = (Threw t, s') →
           t = Message "Failed to retrieve cart" ∧ s' = s).
Proof.
  split.
  - intros Hready.
    unfold getCartByUserId, catchM, op_bindM at 1, statement at 1, transactionM, lift,
      cart_findUnique_userID, cart_used.
    destruct (List.find _ (db_cart s)) as [cart|] eqn:Hfind.
    + unfold op_bindM, op_retM. eexists _, s. split; [done|]. repeat split.
      intros otherID.
      unfold getCartByUserId, catchM, op_bindM, statement, transactionM, lift,
        cart_findUnique_userID. by rewrite Hfind.
    + destruct Hready as [(c & Hc & Hu)|[Huser Hfresh]].
      { destruct (find_elem_of (λ c, bool_decide (cart_userID c = userID)) _ c Hc)
          as [? Hsome]; [by apply bool_decide_eq_true_2 | congruence]. }
      unfold op_bindM, statement, transactionM, lift, cart_create. simpl.
      assert (existsb (λ c', bool_decide (cartID c' = newCartID)
                             || bool_decide (cart_userID c' = userID)) (db_cart s)
              = false) as ->.
      { apply not_true_is_false. intros (c & Hc & Hor)%existsb_exists.
        apply list_elem_of_In in Hc. apply orb_true_iff in Hor as [H|H].
        - apply bool_decide_eq_true_1 in H. by apply (Hfresh c).
        - destruct (find_elem_of (λ c, bool_decide (cart_userID c = userID)) _ c Hc H)
            as [? Hsome]. congruence. }
      unfold fk_holds. rewrite bool_decide_eq_true_2 by done.
      destruct (relationMode schema); simpl; eexists _, _; (split; [done|]);
        (repeat split); intros otherID;
        unfold getCartByUserId, catchM, op_bindM, statement, transactionM, lift,
          cart_findUnique_userID; simpl;
        (rewrite (find_app_new _ _ (mkCart newCartID userID) Hfind);
          [done | by apply bool_decide_eq_true_2]).
  - intros t s'.
    unfold getCartByUserId, catchM, op_bindM at 1, statement at 1, transactionM, lift,
      cart_findUnique_userID.
    destruct (List.find _ (db_cart s)) as [cart|]; [done|].
    unfold op_bindM, statement, transactionM, lift.
    destruct (cart_create schema _ s) as [[c s1]|e]; [done|].
    by intros [= <- <-].
Qed.

Lemma getCartByUserId_idempotent_witness :
  ∃ resp s1, getCartByUserId sample_schema "cart-100" "user-001" sample_db
             = (Returned resp, s1) ∧
    cr_cartID resp = "cart-100" ∧
    getCartByUserId sample_schema "cart-101" "user-001" s1 = (Returned resp, s1).
Proof.
  destruct (proj1 (getCartByUserId_idempotent sample_schema "cart-100" "user-001"
              sample_db)) as (resp & s1 & H & Hid & _ & _ & Hagain).
  - right. split; [by eexists; vm_compute|].
    intros c Hc. by apply elem_of_nil in Hc.
  - exists resp, s1. split; [exact H|]. split; [exact Hid|]. apply Hagain.
Defined.

(** ** [updateCartItem], [removeItemFromCart] and [clearCart] *)

Lemma filter_key_removed c b rows c' b' :
  filter (key_is c' b') (List.filter (λ row, negb (cartID_bookID c b row)) rows)
  = if decide ((c', b') = (c, b)) then [] else filter (key_is c' b') rows.
Proof.
  induction rows as [|row rows IH]; simpl; [by case_decide|].
  rewrite cartID_bookID_key, filter_cons.
  destruct (decide (key_is c b row)) as [[Hc Hb]|Hk].
  - rewrite bool_decide_eq_true_2 by done. simpl. rewrite IH.
    case_decide as Hd; [done|].
    rewrite decide_False; [done|]. intros [Hc' Hb']. apply Hd. congruence.
  - rewrite bool_decide_eq_false_2 by done. simpl. rewrite filter_cons, IH.
    case_decide as Hd; [|done].
    injection Hd as -> ->. by rewrite decide_False.
Qed.

Lemma find_key_of c b rows item :
  List.find (cartID_bookID c b) rows = Some item → key_is c b item.
Proof.
  intros [_ Hk]%find_some. rewrite cartID_bookID_key in Hk.
  by apply bool_decide_eq_true_1 in Hk.
Qed.

Lemma refetch_cart cart (s : DB) :
  cart ∈ db_cart s →
  is_Some (List.find (λ c, bool_decide (cartID c = cartID cart)) (db_cart s)).
Proof.
  intros Hin. apply (find_elem_of _ _ cart Hin). by apply bool_decide_eq_true_2.
Qed.

Lemma user_cart_elem userID (s : DB) cart :
  List.find (λ c, bool_decide (cart_userID c = userID)) (db_cart s) = Some cart →
  cart ∈ db_cart s.
Proof. intros [Hin _]%find_some. by apply list_elem_of_In. Qed.

(** The rows after [updateCartItem] with a quantity. *)
Lemma updateCartItem_quantity userID bookID updateData s cart item bk q :
  List.find (λ c, bool_decide (cart_userID c = userID)) (db_cart s) = Some cart →
  List.find (cartID_bookID (cartID cart) bookID) (db_cartBook s) = Some item →
  db_book s !! bookID = Some bk →
  uc_quantity updateData = Some q →
  q ≤ stockQuantity bk →
  ∃ resp, updateCartItem userID bookID updateData s =
    (Returned resp,
     with_cartBook
       (if bool_decide (q ≤ 0)
        then List.filter (λ row, negb (cartID_bookID (cartID cart) bookID row))
        else map (λ row, if cartID_bookID (cartID cart) bookID row
                         then mkCartBook (cb_cartID row) (cb_bookID row) q
                                (default (isSelected row) (uc_isSelected updateData))
                                (addedAt row)
                         else row)) s).
Proof.
  intros Hcart Hitem Hbk Hq Hstock.
  destruct (refetch_cart cart s (user_cart_elem _ _ _ Hcart)) as [updated Hupdated].
  pose proof (find_key_of _ _ _ _ Hitem) as [_ Hb].
  unfold updateCartItem, catchM, transactionM, bindM at 1, lift at 1,
    cart_findUnique_userID. rewrite Hcart.
  unfold bindM at 1, lift at 1, cartBook_findUnique. rewrite Hitem.
  rewrite Hq. unfold bindM at 1. unfold bindM at 1, lift at 1, book_findUnique.
  rewrite Hb, Hbk. rewrite bool_decide_eq_false_2 by lia.
  case_bool_decide as Hzero.
  - unfold lift at 1, cartBook_delete. rewrite existsb_find, Hitem.
    unfold bindM, lift, cart_findUnique_cartID. simpl. rewrite Hupdated. by eexists.
  - unfold lift at 1, cartBook_update. rewrite existsb_find, Hitem.
    unfold bindM, lift, cart_findUnique_cartID. simpl. rewrite Hupdated. by eexists.
Qed.

(** X14.  [updateCartItem] throws "Cart not found" when the user has
    no cart, "Item not found in cart" when the cart has no row for the
    book, and "Not enough stock" when the quantity it is given is
    above the book's stock.  Whatever it throws, the store is as it
    was. *)
Theorem updateCartItem_guards userID bookID updateData s :
  (∀ t s', updateCartItem userID bookID updateData s = (Threw t, s') → s' = s) ∧
  (List.find (λ c, bool_decide (cart_userID c = userID)) (db_cart s) = None →
   updateCartItem userID bookID updateData s = (Threw (Raised CartNotFound), s)) ∧
  (∀ cart,
     List.find (λ c, bool_decide (cart_userID c = userID)) (db_cart s) = Some cart →
     (rows_for (cartID cart) bookID s = [] →
      updateCartItem userID bookID updateData s
      = (Threw (Message "Item not found in cart"), s)) ∧
     (∀ item bk q,
        item ∈ rows_for (cartID cart) bookID s →
        db_book s !! bookID = Some bk → uc_quantity updateData = Some q →
        q > stockQuantity bk →
        updateCartItem userID bookID updateData s
        = (Threw (Raised (NotEnoughStock (stockQuantity bk))), s))).
Proof.
  split; [|split].
  - intros t s'. unfold updateCartItem, catchM, transactionM.
    destruct (bindM _ _ s) as [[a s1]|t0]; [done|]. by intros [= _ <-].
  - intros Hnone. unfold updateCartItem, catchM, transactionM, bindM, lift,
      cart_findUnique_userID. by rewrite Hnone.
  - intros cart Hcart. split.
    + intros Hrows. unfold updateCartItem, catchM, transactionM, bindM at 1, lift at 1,
        cart_findUnique_userID. rewrite Hcart.
      unfold bindM, lift, cartBook_findUnique. unfold rows_for in Hrows.
      by rewrite find_rows, Hrows.
    + intros item bk q Hin Hbk Hq Hstock.
      unfold updateCartItem, catchM, transactionM, bindM at 1, lift at 1,
        cart_findUnique_userID. rewrite Hcart.
      unfold bindM at 1, lift at 1, cartBook_findUnique. unfold rows_for in Hin.
      rewrite find_rows.
      destruct (filter (key_is (cartID cart) bookID) (db_cartBook s)) as [|first rest]
        eqn:Hrows; [by apply elem_of_nil in Hin|]. simpl.
      assert (key_is (cartID cart) bookID first) as [_ Hb].
      { eapply (list_elem_of_filter (key_is _ _) (db_cartBook s)).
        rewrite Hrows. apply list_elem_of_here. }
      rewrite Hq. unfold bindM at 1. unfold bindM at 1, lift at 1, book_findUnique.
      rewrite Hb, Hbk. by rewrite bool_decide_eq_true_2.
Qed.

Lemma updateCartItem_guards_witness :
  updateCartItem "user-001" "book-002" (mkUpdateCartItemInput (Some 4) None) sample_db_cart
  = (Threw (Raised (NotEnoughStock 3)), sample_db_cart).
Proof.
  apply (proj2 (proj2 (proj2 (updateCartItem_guards "user-001" "book-002"
           (mkUpdateCartItemInput (Some 4) None) sample_db_cart))
           (mkCart "cart-100" "user-001") ltac:(vm_compute; reflexivity))
           (mkCartBook "cart-100" "book-002" 2 true 5)
           (mkBook "Book Two" 120000 3 0) 4).
  - vm_compute. apply list_elem_of_here.
  - vm_compute. reflexivity.
  - reflexivity.
  - simpl. lia.
Defined.

(** X15.  [updateCartItem] with a quantity from 1 up to the book's
    stock replaces the quantity of the row (it does not add to it), so
    the cart then holds at most the stock of that book; the selection
    flag changes only when one is given.  The rows of every other
    (cart, book) pair are as before. *)
Theorem updateCartItem_sets_quantity userID bookID updateData s cart old bk q :
  List.find (λ c, bool_decide (cart_userID c = userID)) (db_cart s) = Some cart →
  rows_for (cartID cart) bookID s = [old] →
  db_book s !! bookID = Some bk →
  uc_quantity updateData = Some q →
  0 < q ≤ stockQuantity bk →
  ∃ resp s', updateCartItem userID bookID updateData s = (Returned resp, s') ∧
    rows_for (cartID cart) bookID s'
    = [mkCartBook (cartID cart) bookID q
                  (default (isSelected old) (uc_isSelected updateData)) (addedAt old)] ∧
    Forall (λ row, cb_quantity row ≤ stockQuantity bk) (rows_for (cartID cart) bookID s') ∧
    ∀ c' b', (c', b') ≠ (cartID cart, bookID) → rows_for c' b' s' = rows_for c' b' s.
Proof.
  intros Hcart Hold Hbk Hq [Hpos Hstock].
  assert (List.find (cartID_bookID (cartID cart) bookID) (db_cartBook s) = Some old)
    as Hitem.
  { unfold rows_for in Hold. by rewrite find_rows, Hold. }
  destruct (updateCartItem_quantity _ _ _ _ _ _ _ _ Hcart Hitem Hbk Hq Hstock)
    as [resp H].
  rewrite bool_decide_eq_false_2 in H by lia.
  eexists _, _. split; [exact H|].
  pose proof (find_key_of _ _ _ _ Hitem) as [Hc Hb].
  assert (rows_for (cartID cart) bookID
            (with_cartBook (map (λ row, if cartID_bookID (cartID cart) bookID row
               then mkCartBook (cb_cartID row) (cb_bookID row) q
                      (default (isSelected row) (uc_isSelected updateData)) (addedAt row)
               else row)) s)
          = [mkCartBook (cartID cart) bookID q
               (default (isSelected old) (uc_isSelected updateData)) (addedAt old)])
    as Hnew.
  { unfold rows_for. simpl.
    rewrite filter_key_map
      by (intros row; by destruct (cartID_bookID (cartID cart) bookID row)).
    unfold rows_for in Hold. rewrite Hold. simpl.
    rewrite cartID_bookID_key, bool_decide_eq_true_2 by done. by rewrite Hc, Hb. }
  split; [exact Hnew|]. split.
  - rewrite Hnew. by repeat constructor.
  - intros c' b' Hne. unfold rows_for. simpl.
    rewrite filter_key_map
      by (intros row; by destruct (cartID_bookID (cartID cart) bookID row)).
    apply map_id_on. intros row [[Hc' Hb'] _]%list_elem_of_filter.
    rewrite cartID_bookID_key, bool_decide_eq_false_2; [done|].
    intros [? ?]. apply Hne. congruence.
Qed.

(** In the sample cart, with 5 copies after the second add, the
    quantity is set to 3. *)
Lemma updateCartItem_sets_quantity_witness :
  ∃ resp s', updateCartItem "user-001" "book-002" (mkUpdateCartItemInput (Some 3) None)
               sample_db_cart = (Returned resp, s') ∧
    rows_for "cart-100" "book-002" s' = [mkCartBook "cart-100" "book-002" 3 true 5].
Proof.
  destruct (updateCartItem_sets_quantity "user-001" "book-002"
              (mkUpdateCartItemInput (Some 3) None) sample_db_cart
              (mkCart "cart-100" "user-001") (mkCartBook "cart-100" "book-002" 2 true 5)
              (mkBook "Book Two" 120000 3 0) 3)
    as (resp & s' & H & Hrows & _).
  - vm_compute. reflexivity.
  - vm_compute. reflexivity.
  - vm_compute. reflexivity.
  - reflexivity.
  - simpl. lia.
  - by exists resp, s'.
Defined.

(** X16.  [updateCartItem] with a quantity of zero or less (and not
    above the stock) deletes the rows of the (cart, book) pair,
    whether or not a selection flag is given, and leaves the rows of
    every other pair as they were. *)
Theorem updateCartItem_zero_removes userID bookID updateData s cart item bk q :
  List.find (λ c, bool_decide (cart_userID c = userID)) (db_cart s) = Some cart →
  item ∈ rows_for (cartID cart) bookID s →
  db_book s !! bookID = Some bk →
  uc_quantity updateData = Some q →
  q ≤ 0 → q ≤ stockQuantity bk →
  ∃ resp s', updateCartItem userID bookID updateData s = (Returned resp, s') ∧
    rows_for (cartID cart) bookID s' = [] ∧
    ∀ c' b', (c', b') ≠ (cartID cart, bookID) → rows_for c' b' s' = rows_for c' b' s.
Proof.
  intros Hcart Hin Hbk Hq Hzero Hstock.
  assert (is_Some (List.find (cartID_bookID (cartID cart) bookID) (db_cartBook s)))
    as [first Hitem].
  { rewrite find_rows. unfold rows_for in Hin.
    destruct (filter _ (db_cartBook s)); [by apply elem_of_nil in Hin | done]. }
  destruct (updateCartItem_quantity _ _ _ _ _ _ _ _ Hcart Hitem Hbk Hq Hstock)
    as [resp H].
  rewrite bool_decide_eq_true_2 in H by done.
  eexists _, _. split; [exact H|]. unfold rows_for. simpl. split.
  - by rewrite filter_key_removed, decide_True.
  - intros c' b' Hne. by rewrite filter_key_removed, decide_False.
Qed.

Lemma updateCartItem_zero_removes_witness :
  ∃ resp s', updateCartItem "user-001" "book-002"
               (mkUpdateCartItemInput (Some 0) (Some false)) sample_db_cart
             = (Returned resp, s') ∧
    rows_for "cart-100" "book-002" s' = [].
Proof.
  destruct (updateCartItem_zero_removes "user-001" "book-002"
              (mkUpdateCartItemInput (Some 0) (Some false)) sample_db_cart
              (mkCart "cart-100" "user-001") (mkCartBook "cart-100" "book-002" 2 true 5)
              (mkBook "Book Two" 120000 3 0) 0)
    as (resp & s' & H & Hrows & _).
  - vm_compute. reflexivity.
  - vm_compute. apply list_elem_of_here.
  - vm_compute. reflexivity.
  - reflexivity.
  - lia.
  - simpl. lia.
  - by exists resp, s'.
Defined.

Lemma removeItemFromCart_eq userID bookID s cart :
  List.find (λ c, bool_decide (cart_userID c = userID)) (db_cart s) = Some cart →
  ∃ resp, removeItemFromCart userID bookID s =
    match List.find (cartID_bookID (cartID cart) bookID) (db_cartBook s) with
    | Some _ =>
      (Returned resp,
       with_cartBook (List.filter (λ row, negb (cartID_bookID (cartID cart) bookID row))) s)
    | None => (Threw (Message "Item not found in cart"), s)
    end.
Proof.
  intros Hcart.
  destruct (refetch_cart cart s (user_cart_elem _ _ _ Hcart)) as [updated Hupdated].
  unfold removeItemFromCart, catchM, transactionM, bindM at 1, lift at 1,
    cart_findUnique_userID. rewrite Hcart.
  unfold bindM at 1, lift at 1, cartBook_delete. rewrite existsb_find.
  destruct (List.find _ (db_cartBook s)) as [item|].
  - unfold bindM, lift, cart_findUnique_cartID. simpl. rewrite Hupdated. by eexists.
  - by exists (mkCartResponse "" "" [] 0).
Qed.

(** X17.  [removeItemFromCart] throws "Cart not found" when the user
    has no cart.  When the cart has rows for the book it deletes them
    and leaves the rows of every other (cart, book) pair; when it has
    none it throws "Item not found in cart" and changes nothing.  So a
    removal cannot be repeated: the second call throws. *)
Theorem removeItemFromCart_once userID bookID s :
  (List.find (λ c, bool_decide (cart_userID c = userID)) (db_cart s) = None →
   removeItemFromCart userID bookID s = (Threw (Raised CartNotFound), s)) ∧
  (∀ cart,
     List.find (λ c, bool_decide (cart_userID c = userID)) (db_cart s) = Some cart →
     (rows_for (cartID cart) bookID s = [] →
      removeItemFromCart userID bookID s = (Threw (Message "Item not found in cart"), s)) ∧
     (rows_for (cartID cart) bookID s ≠ [] →
      ∃ resp s', removeItemFromCart userID bookID s = (Returned resp, s') ∧
        rows_for (cartID cart) bookID s' = [] ∧
        (∀ c' b', (c', b') ≠ (cartID cart, bookID) →
                  rows_for c' b' s' = rows_for c' b' s) ∧
        removeItemFromCart userID bookID s'
        = (Threw (Message "Item not found in cart"), s'))).
Proof.
  split.
  - intros Hnone. unfold removeItemFromCart, catchM, transactionM, bindM, lift,
      cart_findUnique_userID. by rewrite Hnone.
  - intros cart Hcart. destruct (removeItemFromCart_eq _ bookID _ _ Hcart) as [resp H].
    rewrite find_rows in H. fold (rows_for (cartID cart) bookID s) in H. split.
    + intros Hrows. by rewrite H, Hrows.
    + intros Hrows. destruct (rows_for (cartID cart) bookID s) as [|first rest]; [done|].
      simpl in H. eexists _, _. split; [exact H|].
      assert (∀ c' b', rows_for c' b'
                (with_cartBook
                   (List.filter (λ row, negb (cartID_bookID (cartID cart) bookID row))) s)
              = if decide ((c', b') = (cartID cart, bookID)) then []
                else rows_for c' b' s) as Hafter.
      { intros c' b'. unfold rows_for. simpl. apply filter_key_removed. }
      split; [by rewrite Hafter, decide_True|]. split.
      * intros c' b' Hne. by rewrite Hafter, decide_False.
      * destruct (removeItemFromCart_eq userID bookID
                    (with_cartBook
                       (List.filter (λ row, negb (cartID_bookID (cartID cart) bookID row)))
                       s) cart Hcart) as [resp' H'].
        rewrite find_rows in H'.
        fold (rows_for (cartID cart) bookID
                (with_cartBook
                   (List.filter (λ row, negb (cartID_bookID (cartID cart) bookID row))) s))
          in H'.
        by rewrite Hafter, decide_True in H'.
Qed.

Lemma removeItemFromCart_once_witness :
  ∃ resp s', removeItemFromCart "user-001" "book-002" sample_db_cart = (Returned resp, s') ∧
    rows_for "cart-100" "book-002" s' = [] ∧
    removeItemFromCart "user-001" "book-002" s'
    = (Threw (Message "Item not found in cart"), s').
Proof.
  destruct (proj2 (proj2 (removeItemFromCart_once "user-001" "book-002" sample_db_cart)
              (mkCart "cart-100" "user-001") ltac:(vm_compute; reflexivity)))
    as (resp & s' & H & Hrows & _ & Hagain).
  - vm_compute. discriminate.
  - by exists resp, s'.
Defined.

(** The store after [addItemToCart] for a user whose cart exists. *)
Lemma addItemToCart_found schema newCartID now userID itemData s cart bk :
  List.find (λ c, bool_decide (cart_userID c = userID)) (db_cart s) = Some cart →
  db_book s !! ci_bookID itemData = Some bk →
  ci_quantity itemData ≤ stockQuantity bk →
  ∃ resp, addItemToCart schema newCartID now userID itemData s
    = (Ok resp, with_cartBook
                  (cart_rows_after (cartID cart) (ci_bookID itemData)
                     (ci_quantity itemData) (default true (ci_isSelected itemData)) now) s).
Proof.
  intros Hcart Hbk Hq.
  destruct (addItemToCart_rest_ok schema now itemData cart s bk
              (user_cart_elem _ _ _ Hcart) Hbk Hq) as [resp Hrest].
  rewrite addItemToCart_unfold. unfold catch, transaction, bind at 1,
    cart_findUnique_userID. rewrite Hcart. unfold bind, ret. rewrite Hrest. by eexists.
Qed.

Lemma filter_nothing {A} (f : A → bool) (l : list A) :
  List.find f l = None → List.filter (λ x, negb (f x)) l = l.
Proof.
  induction l as [|x l IH]; simpl; [done|].
  destruct (f x); [done|]. simpl. intros H. by rewrite IH.
Qed.

(** X18.  Adding a book that the user's cart does not hold and then
    removing it gives the rows of [CartBook] back exactly as they
    were. *)
Theorem add_then_remove schema newCartID now userID itemData s cart bk :
  List.find (λ c, bool_decide (cart_userID c = userID)) (db_cart s) = Some cart →
  rows_for (cartID cart) (ci_bookID itemData) s = [] →
  db_book s !! ci_bookID itemData = Some bk →
  ci_quantity itemData ≤ stockQuantity bk →
  ∃ r1 s1 r2 s2,
    addItemToCart schema newCartID now userID itemData s = (Ok r1, s1) ∧
    removeItemFromCart userID (ci_bookID itemData) s1 = (Returned r2, s2) ∧
    s2 = s.
Proof.
  intros Hcart Hrows Hbk Hq.
  destruct (addItemToCart_found schema newCartID now _ _ _ _ _ Hcart Hbk Hq) as [r1 H1].
  assert (List.find (cartID_bookID (cartID cart) (ci_bookID itemData)) (db_cartBook s)
          = None) as Hnone.
  { unfold rows_for in Hrows. by rewrite find_rows, Hrows. }
  assert (cart_rows_after (cartID cart) (ci_bookID itemData) (ci_quantity itemData)
            (default true (ci_isSelected itemData)) now (db_cartBook s)
          = db_cartBook s ++ [mkCartBook (cartID cart) (ci_bookID itemData)
                                (ci_quantity itemData)
                                (default true (ci_isSelected itemData)) now]) as Hafter.
  { unfold cart_rows_after. by rewrite Hnone. }
  destruct (removeItemFromCart_eq userID (ci_bookID itemData)
              (with_cartBook (cart_rows_after (cartID cart) (ci_bookID itemData)
                 (ci_quantity itemData) (default true (ci_isSelected itemData)) now) s)
              cart Hcart) as [r2 H2].
  cbn [db_cartBook with_cartBook] in H2. rewrite Hafter in H2.
  rewrite (find_app_new _ _ _ Hnone) in H2
    by (rewrite cartID_bookID_key; by apply bool_decide_eq_true_2).
  eexists _, _, _, _. split; [exact H1|]. split; [exact H2|].
  unfold with_cartBook. cbn [db_cartBook]. rewrite Hafter.
  rewrite List.filter_app, (filter_nothing _ _ Hnone). simpl.
  rewrite cartID_bookID_key, bool_decide_eq_true_2 by done. simpl.
  rewrite app_nil_r. by destruct s.
Qed.

Lemma add_then_remove_witness :
  ∃ r1 s1 r2 s2,
    addItemToCart sample_schema "cart-101" 6 "user-001"
      (mkCartItemInput "book-001" 4 None) sample_db_cart = (Ok r1, s1) ∧
    removeItemFromCart "user-001" "book-001" s1 = (Returned r2, s2) ∧
    s2 = sample_db_cart.
Proof.
  apply (add_then_remove sample_schema "cart-101" 6 "user-001"
           (mkCartItemInput "book-001" 4 None) sample_db_cart
           (mkCart "cart-100" "user-001") (mkBook "Book One" 100000 50 7)).
  - vm_compute. reflexivity.
  - vm_compute. reflexivity.
  - vm_compute. reflexivity.
  - simpl. lia.
Defined.

(** X19.  [clearCart] throws "Cart not found" when the user has no
    cart.  Otherwise it deletes every row of the user's cart and no
    row of another cart, keeps the cart itself, and can be repeated:
    a second call returns again and changes nothing. *)
Theorem clearCart_empties userID s :
  (List.find (λ c, bool_decide (cart_userID c = userID)) (db_cart s) = None →
   clearCart userID s = (Threw (Raised CartNotFound), s)) ∧
  (∀ cart,
     List.find (λ c, bool_decide (cart_userID c = userID)) (db_cart s) = Some cart →
     ∃ s', clearCart userID s = (Returned "Cart cleared successfully", s') ∧
       cart_books (cartID cart) s' = [] ∧
       (∀ c, c ≠ cartID cart → cart_books c s' = cart_books c s) ∧
       db_cart s' = db_cart s ∧
       clearCart userID s' = (Returned "Cart cleared successfully", s')).
Proof.
  split.
  - intros Hnone. unfold clearCart, catchM, transactionM, bindM, lift,
      cart_findUnique_userID. by rewrite Hnone.
  - intros cart Hcart.
    assert (∀ rows c,
              filter (λ row, cb_cartID row = c)
                (List.filter (λ row, negb (bool_decide (cb_cartID row = cartID cart))) rows)
              = if decide (c = cartID cart) then []
                else filter (λ row, cb_cartID row = c) rows) as Hfilter.
    { intros rows c. induction rows as [|row rows IH]; simpl; [by case_decide|].
      case_bool_decide as Hrow; simpl.
      - rewrite IH, (filter_cons _ row). case_decide as Hc; [done|].
        rewrite decide_False; [done | congruence].
      - rewrite !filter_cons, IH. case_decide as Hc; [|done].
        subst c. by rewrite decide_False. }
    assert (∀ s1, db_cart s1 = db_cart s →
              clearCart userID s1
              = (Returned "Cart cleared successfully",
                 with_cartBook
                   (List.filter (λ row, negb (bool_decide (cb_cartID row = cartID cart))))
                   s1)) as Hrun.
    { intros s1 Hs1. unfold clearCart, catchM, transactionM, bindM, lift,
        cart_findUnique_userID. by rewrite Hs1, Hcart. }
    eexists. split; [by apply Hrun|]. unfold cart_books. simpl.
    split; [by rewrite Hfilter, decide_True|]. split; [|split; [done|]].
    + intros c Hc. by rewrite Hfilter, decide_False.
    + rewrite Hrun by done. f_equal. unfold with_cartBook. simpl. f_equal.
      induction (db_cartBook s) as [|row rows IH]; simpl; [done|].
      case_bool_decide as Hrow; simpl; [done|].
      rewrite bool_decide_eq_false_2 by done. simpl. by rewrite IH.
Qed.

Lemma clearCart_empties_witness :
  ∃ s', clearCart "user-001" sample_db_cart = (Returned "Cart cleared successfully", s') ∧
    cart_books "cart-100" s' = [] ∧
    clearCart "user-001" s' = (Returned "Cart cleared successfully", s').
Proof.
  destruct (proj2 (clearCart_empties "user-001" sample_db_cart)
              (mkCart "cart-100" "user-001") ltac:(vm_compute; reflexivity))
    as (s' & H & Hrows & _ & _ & Hagain).
  by exists s'.
Defined.

(** ** Login, passwords and the auth controller *)

Lemma find_map_to_list {V} (f : ID * V → bool) (m : gmap ID V) kv :
  List.find f (map_to_list m) = Some kv → m !! kv.1 = Some kv.2 ∧ f kv = true.
Proof.
  intros [Hin Hf]%find_some. split; [|done].
  apply list_elem_of_In in Hin. destruct kv as [k v].
  by apply elem_of_map_to_list in Hin.
Qed.

Lemma find_map_to_list_unique {V} (f : ID * V → bool) (m : gmap ID V) k v :
  m !! k = Some v → f (k, v) = true →
  (∀ k' v', m !! k' = Some v' → f (k', v') = true → k' = k) →
  List.find f (map_to_list m) = Some (k, v).
Proof.
  intros Hk Hf Hunique. destruct (List.find f (map_to_list m)) as [[k' v']|] eqn:Hfind.
  - apply find_map_to_list in Hfind as [Hk' Hf']. simpl in Hk'.
    pose proof (Hunique k' v' Hk' Hf') as ->. congruence.
  - rewrite (find_none _ _ Hfind (k, v)) in Hf; [done|].
    apply list_elem_of_In. by apply elem_of_map_to_list.
Qed.

(** What the profile of a returned user is, by the role of the
    [Authentication] row. *)
Lemma login_cases bcrypt_compare loginData s :
  login bcrypt_compare loginData s = (Threw (Message "Login failed"), s) ∨
  ∃ u auth,
    login bcrypt_compare loginData s = (Returned u, s) ∧
    List.find (λ a, bool_decide (email a = login_email loginData))
      (db_authentication s) = Some auth ∧
    bcrypt_compare (login_password loginData) (pass auth) = true ∧
    au_email u = email auth ∧ au_role u = role auth ∧ au_id u ≠ "" ∧
    match role auth with
    | role_user => ∃ usr, db_user s !! au_id u = Some usr ∧
                          user_authID usr = authID auth ∧ au_name u = user_name usr
    | role_author => ∃ usr, db_author s !! au_id u = Some usr ∧
                            author_authID usr = authID auth ∧
                            au_name u = author_name usr
    | role_admin => ∃ usr, db_admin s !! au_id u = Some usr ∧
                           admin_authID usr = authID auth ∧
                           au_name u = "Administrator"
    end.
Proof.
  unfold login, catchM, op_bindM, statement, transactionM, lift,
    authentication_findUnique_email, op_throwM, op_retM, user_findUnique,
    author_findUnique.
  destruct (List.find _ (db_authentication s)) as [auth|] eqn:Hauth; [|by left].
  destruct (bcrypt_compare _ (pass auth)) eqn:Hcmp; [|by left]. simpl.
  destruct (role auth) eqn:Hrole.
  - destruct (auth_user (authID auth) s) as [u|] eqn:Hu; [|by left].
    apply find_map_to_list in Hu as [Hu Hid%bool_decide_eq_true_1].
    rewrite Hu. simpl.
    case_bool_decide as Hkey; [by left|]. right. simpl.
    eexists _, auth. rewrite Hrole. split_and!; try done. by exists u.2.
  - destruct (auth_author (authID auth) s) as [u|] eqn:Hu; [|by left].
    apply find_map_to_list in Hu as [Hu Hid%bool_decide_eq_true_1].
    rewrite Hu. simpl.
    case_bool_decide as Hkey; [by left|]. right. simpl.
    eexists _, auth. rewrite Hrole. split_and!; try done. by exists u.2.
  - destruct (auth_admin (authID auth) s) as [u|] eqn:Hu; [|by left].
    apply find_map_to_list in Hu as [Hu Hid%bool_decide_eq_true_1].
    simpl.
    case_bool_decide as Hkey; [by left|]. right. simpl.
    eexists _, auth. rewrite Hrole. split_and!; try done. by exists u.2.
Qed.

(** X20.  [login] never changes the store.  It returns only when the
    row of the email exists and [bcrypt.compare] accepts the password
    against its hash; the user it returns carries the email and role
    of that row and the key of a profile row that holds the row's
    [authID].  Every failure, whatever its cause, is thrown as
    "Login failed". *)
Theorem login_checks_password bcrypt_compare loginData s :
  (login bcrypt_compare loginData s).2 = s ∧
  match (login bcrypt_compare loginData s).1 with
  | Returned u =>
    ∃ auth,
      List.find (λ a, bool_decide (email a = login_email loginData))
        (db_authentication s) = Some auth ∧
      bcrypt_compare (login_password loginData) (pass auth) = true ∧
      au_email u = email auth ∧ au_role u = role auth ∧ au_id u ≠ "" ∧
      match role auth with
      | role_user => ∃ usr, db_user s !! au_id u = Some usr ∧
                            user_authID usr = authID auth ∧ au_name u = user_name usr
      | role_author => ∃ usr, db_author s !! au_id u = Some usr ∧
                              author_authID usr = authID auth ∧
                              au_name u = author_name usr
      | role_admin => ∃ usr, db_admin s !! au_id u = Some usr ∧
                             admin_authID usr = authID auth ∧
                             au_name u = "Administrator"
      end
  | Threw t => t = Message "Login failed"
  end.
Proof.
  destruct (login_cases bcrypt_compare loginData s) as [->|(u & auth & -> & H)]; [done|].
  split; [done|]. by exists auth.
Qed.

(** The store after a committed registration of a [user], with
    relations emulated by the client. *)
Lemma register_user_state schema hash ids userData s u s' :
  relationMode schema = prismaRelations →
  reg_role userData = role_user →
  register schema hash ids userData s = (Ok u, s') →
  u = mkAuthUser (gen_userID ids) (reg_email userData) (reg_name userData) role_user ∧
  List.find (λ a, bool_decide (email a = reg_email userData)) (db_authentication s)
  = None ∧
  db_authentication s'
  = db_authentication s ++ [mkAuthentication (gen_authID ids) (reg_email userData)
                              (hash (reg_password userData)) role_user] ∧
  db_user s' = <[gen_profileID ids := mkUser (gen_authID ids) (reg_name userData) []]>
                 (db_user s) ∧
  ¬ map_Exists (λ _ u, user_authID u = gen_authID ids) (db_user s).
Proof.
  intros Hmode Hrole.
  unfold register, catch, transaction2, bind2 at 1, in_tx, authentication_findUnique_email.
  destruct (List.find _ (db_authentication s)); [done|].
  unfold bind2 at 1, authentication_create. simpl.
  destruct (existsb _ (db_authentication s)); [done|].
  unfold bind2 at 1. rewrite Hrole. unfold bind2 at 1, on_global. simpl.
  destruct (db_user s !! gen_profileID ids); [done|].
  case_bool_decide as Hnone; [done|].
  unfold bind2, cart_create, fk_holds. rewrite Hmode. simpl.
  destruct (existsb _ (db_cart s)); [done|]. simpl.
  intros [= <- <-]. by simpl.
Qed.

(** X21.  With relations emulated by the client, a [user] who has
    registered can log in with the same email and password (given
    that [bcrypt.compare] accepts a password against its own hash),
    and [login] answers with the key of the profile row, which
    [userFactory.createUser] drew, while [register] answered with the
    [userID] local of its own: the two calls give the client two
    different ids for the one user whenever the two uuids differ. *)
Theorem register_then_login schema hash bcrypt_compare ids userData s u s' :
  relationMode schema = prismaRelations →
  reg_role userData = role_user →
  bcrypt_compare (reg_password userData) (hash (reg_password userData)) = true →
  gen_profileID ids ≠ "" →
  register schema hash ids userData s = (Ok u, s') →
  au_id u = gen_userID ids ∧
  login bcrypt_compare (mkLoginInput (reg_email userData) (reg_password userData)) s'
  = (Returned (mkAuthUser (gen_profileID ids) (reg_email userData) (reg_name userData)
                          role_user), s').
Proof.
  intros Hmode Hrole Hcmp Hkey Hreg.
  destruct (register_user_state _ _ _ _ _ _ _ Hmode Hrole Hreg)
    as (-> & Hnone & Hauth & Huser & Hfresh).
  split; [done|].
  unfold login, catchM, op_bindM, statement, transactionM, lift,
    authentication_findUnique_email, op_throwM, op_retM, user_findUnique. simpl.
  rewrite Hauth, (find_app_new _ _ _ Hnone) by (simpl; by apply bool_decide_eq_true_2).
  simpl. rewrite Hcmp. simpl.
  unfold auth_user. rewrite Huser.
  rewrite (find_map_to_list_unique _ _ (gen_profileID ids)
             (mkUser (gen_authID ids) (reg_name userData) [])).
  - simpl. rewrite Huser, lookup_insert_eq. simpl. by rewrite bool_decide_eq_false_2.
  - apply lookup_insert_eq.
  - simpl. by apply bool_decide_eq_true_2.
  - intros k' v' Hk' Hv'%bool_decide_eq_true_1. simpl in Hv'.
    destruct (decide (k' = gen_profileID ids)) as [|Hne]; [done|].
    rewrite lookup_insert_ne in Hk' by done.
    destruct Hfresh. by exists k', v'.
Qed.

Lemma register_then_login_witness :
  ∃ u s',
    register emulated_schema (λ p, "hash:" +:+ p) sample_ids sample_registration empty_db
    = (Ok u, s') ∧
    au_id u = "user-100" ∧
    login (λ p h, bool_decide (h = "hash:" +:+ p))
      (mkLoginInput "bob@example.com" "secret") s'
    = (Returned (mkAuthUser "user-200" "bob@example.com" "Bob" role_user), s').
Proof.
  eexists _, _. split; [reflexivity|].
  apply (register_then_login emulated_schema (λ p, "hash:" +:+ p)
           (λ p h, bool_decide (h = "hash:" +:+ p)) sample_ids sample_registration
           empty_db).
  - reflexivity.
  - reflexivity.
  - vm_compute. reflexivity.
  - discriminate.
  - reflexivity.
Defined.

Lemma find_map_same {A} (f : A → bool) (g : A → A) (l : list A) :
  (∀ x, f (g x) = f x) → List.find f (map g l) = g <$> List.find f l.
Proof.
  intros Hfg. induction l as [|x l IH]; simpl; [done|].
  rewrite Hfg. by destruct (f x).
Qed.

Lemma changePassword_eq hash bcrypt_compare a currentPassword newPassword s :
  changePassword hash bcrypt_compare a currentPassword newPassword s
  = match List.find (λ row, bool_decide (authID row = a)) (db_authentication s) with
    | Some auth =>
      if bcrypt_compare currentPassword (pass auth)
      then (Returned "Password changed successfully",
            with_authentication
              (map (λ row, if bool_decide (authID row = a)
                           then set_pass (hash newPassword) row else row)) s)
      else (Threw (Message "Failed to change password"), s)
    | None => (Threw (Message "Failed to change password"), s)
    end.
Proof.
  unfold changePassword, catchM, op_bindM, statement, transactionM, lift,
    authentication_findUnique_authID, op_throwM, op_retM, authentication_update,
    auth_row_exists.
  destruct (List.find _ (db_authentication s)) as [auth|] eqn:Hauth; [|done].
  destruct (bcrypt_compare _ (pass auth)); [|done]. simpl.
  by rewrite existsb_find, Hauth.
Qed.

(** X22.  [changePassword] returns exactly when the row of the
    [authID] exists and [bcrypt.compare] accepts the current password
    against its hash.  It then stores the hash of the new password in
    every row of that [authID], and changes no email, role or key, no
    other row and no other table.  Otherwise it throws "Failed to
    change password", whatever the cause, and changes nothing. *)
Theorem changePassword_replaces hash bcrypt_compare a currentPassword newPassword s :
  let r := changePassword hash bcrypt_compare a currentPassword newPassword s in
  ((∃ auth, List.find (λ row, bool_decide (authID row = a)) (db_authentication s)
            = Some auth ∧
            bcrypt_compare currentPassword (pass auth) = true) →
   r.1 = Returned "Password changed successfully" ∧
   r.2 = with_authentication (λ _, db_authentication r.2) s ∧
   length (db_authentication r.2) = length (db_authentication s) ∧
   ∀ i row, db_authentication s !! i = Some row →
     ∃ row', db_authentication r.2 !! i = Some row' ∧
       authID row' = authID row ∧ email row' = email row ∧ role row' = role row ∧
       pass row' = if bool_decide (authID row = a) then hash newPassword else pass row) ∧
  (¬ (∃ auth, List.find (λ row, bool_decide (authID row = a)) (db_authentication s)
              = Some auth ∧
              bcrypt_compare currentPassword (pass auth) = true) →
   r = (Threw (Message "Failed to change password"), s)).
Proof.
  intros r. subst r. rewrite changePassword_eq. split.
  - intros (auth & -> & ->). simpl. split_and!; try done.
    + by rewrite length_map.
    + intros i row Hrow. eexists. rewrite list_lookup_fmap, Hrow. split; [done|].
      by case_bool_decide.
  - intros Hnot. destruct (List.find _ (db_authentication s)) as [auth|]; [|done].
    destruct (bcrypt_compare _ (pass auth)) eqn:Hcmp; [|done].
    destruct Hnot. by exists auth.
Qed.

Lemma changePassword_replaces_witness :
  let r := changePassword (λ p, p) (λ p h, bool_decide (p = h)) "auth-001"
             "hash" "secret2" sample_db in
  r.1 = Returned "Password changed successfully" ∧
  db_authentication r.2
  = [mkAuthentication "auth-001" "ann@example.com" "secret2" role_user].
Proof.
  split.
  - apply (proj1 (changePassword_replaces (λ p, p) (λ p h, bool_decide (p = h))
                    "auth-001" "hash" "secret2" sample_db)).
    eexists. split; vm_compute; reflexivity.
  - vm_compute. reflexivity.
Defined.

(** X23.  After a change of password, a login with the email of the
    changed row is checked against the new hash only: a password that
    [bcrypt.compare] rejects against it, the old one included, fails,
    and the new password logs the same user in as the old one did
    before. *)
Theorem login_after_changePassword hash bcrypt_compare a currentPassword newPassword
    s auth :
  List.find (λ row, bool_decide (authID row = a)) (db_authentication s) = Some auth →
  List.find (λ row, bool_decide (email row = email auth)) (db_authentication s)
  = Some auth →
  bcrypt_compare currentPassword (pass auth) = true →
  ∃ s', changePassword hash bcrypt_compare a currentPassword newPassword s
        = (Returned "Password changed successfully", s') ∧
    (∀ p, bcrypt_compare p (hash newPassword) = false →
          login bcrypt_compare (mkLoginInput (email auth) p) s'
          = (Threw (Message "Login failed"), s')) ∧
    (bcrypt_compare newPassword (hash newPassword) = true →
     (login bcrypt_compare (mkLoginInput (email auth) newPassword) s').1
     = (login bcrypt_compare (mkLoginInput (email auth) currentPassword) s).1).
Proof.
  intros Hid Hemail Hcmp. rewrite changePassword_eq, Hid, Hcmp.
  eexists. split; [done|].
  assert (authID auth = a) as Ha.
  { apply find_some in Hid as [_ Hid]. by apply bool_decide_eq_true_1 in Hid. }
  assert (List.find (λ row, bool_decide (email row = email auth))
            (map (λ row, if bool_decide (authID row = a)
                         then set_pass (hash newPassword) row else row)
                 (db_authentication s))
          = Some (set_pass (hash newPassword) auth)) as Hfound.
  { rewrite find_map_same, Hemail; [|intros x; by destruct (bool_decide (authID x = a))].
    simpl. by rewrite bool_decide_eq_true_2. }
  split.
  - intros p Hp.
    unfold login, catchM, op_bindM, statement, transactionM, lift,
      authentication_findUnique_email, op_throwM. simpl.
    by rewrite Hfound; simpl; rewrite Hp.
  - intros Hnew.
    unfold login, catchM, op_bindM, statement, transactionM, lift,
      authentication_findUnique_email, op_throwM. simpl.
    rewrite Hfound, Hemail; simpl; rewrite Hnew, Hcmp. simpl.
    unfold auth_user, auth_author, auth_admin, user_findUnique, author_findUnique,
      op_retM. simpl.
    destruct (role auth);
      match goal with |- context [List.find ?f ?l] => destruct (List.find f l) end;
      simpl; try done; by case_bool_decide.
Qed.

Lemma login_after_changePassword_witness :
  ∃ s', changePassword (λ p, p) (λ p h, bool_decide (p = h)) "auth-001"
          "hash" "secret2" sample_db
        = (Returned "Password changed successfully", s') ∧
    login (λ p h, bool_decide (p = h)) (mkLoginInput "ann@example.com" "hash") s'
    = (Threw (Message "Login failed"), s') ∧
    (login (λ p h, bool_decide (p = h)) (mkLoginInput "ann@example.com" "secret2") s').1
    = Returned (mkAuthUser "user-001" "ann@example.com" "Ann" role_user).
Proof.
  destruct (login_after_changePassword (λ p, p) (λ p h, bool_decide (p = h))
              "auth-001" "hash" "secret2" sample_db
              (mkAuthentication "auth-001" "ann@example.com" "hash" role_user))
    as (s' & H & Hold & Hnew).
  - vm_compute. reflexivity.
  - vm_compute. reflexivity.
  - vm_compute. reflexivity.
  - exists s'. split; [exact H|]. split.
    + apply Hold. vm_compute. reflexivity.
    + etransitivity; [apply Hnew|]; vm_compute; reflexivity.
Defined.

Lemma register_throws schema hash ids userData s e s' :
  register schema hash ids userData s = (Err e, s') → e = RegistrationFailed.
Proof.
  unfold register, catch. destruct (transaction2 _ s) as [[?|?] ?]; by intros [= <- <-].
Qed.

(** X24.  The [register] handler answers 400, 201 or 500 and never
    409: the service replaces "Email already exists" by "Registration
    failed" before the handler looks for "already exists" in the
    message.  A complete request for an email that is registered is
    answered 500 and changes nothing. *)
Theorem register_handler_never_409 schema prisma_message hash trim ids body s :
  let r := register_handler schema prisma_message hash trim ids body s in
  (r.1 = (400%nat, None) ∧ r.2 = s ∨
   (∃ u, r.1 = (201%nat, Some u)) ∨
   r.1 = (500%nat, None)) ∧
  (∀ e p n ro a,
     body = mkAuthBody (Some e) (Some p) (Some n) (Some ro) →
     e ≠ "" → p ≠ "" → n ≠ "" → is_Some (parse_role ro) →
     a ∈ db_authentication s → email a = trim e →
     r = ((500%nat, None), s)).
Proof.
  intros r. subst r. split.
  - unfold register_handler.
    destruct (body_email body) as [e|]; [|by left].
    destruct (body_password body) as [p|]; [|by left].
    destruct (body_name body) as [n|]; [|by left].
    destruct (body_role body) as [ro|]; [|by left].
    destruct (negb _); [by left|].
    destruct (parse_role ro) as [role|]; [|by left].
    destruct (register _ _ _ _ s) as [[u|error] s'] eqn:Hreg.
    + right. left. by exists u.
    + apply register_throws in Hreg as ->. right. by right.
  - intros e p n ro a -> He Hp Hn [role Hrole] Hin Hemail.
    unfold register_handler. simpl.
    rewrite !bool_decide_eq_false_2 by done.
    assert (ro ≠ "") as Hro by (intros ->; discriminate).
    rewrite bool_decide_eq_false_2 by done. simpl. rewrite Hrole.
    by rewrite (register_existing_email _ _ _ (mkRegisterInput (trim e) p (trim n) role)
                 _ a Hin Hemail).
Qed.

Lemma register_handler_never_409_witness :
  register_handler emulated_schema (λ _, "") (λ p, p) (λ x, x) sample_ids
    (mkAuthBody (Some "ann@example.com") (Some "secret") (Some "Ann") (Some "user"))
    sample_db
  = ((500%nat, None), sample_db).
Proof.
  apply (proj2 (register_handler_never_409 emulated_schema (λ _, "") (λ p, p) (λ x, x)
                  sample_ids
                  (mkAuthBody (Some "ann@example.com") (Some "secret") (Some "Ann")
                              (Some "user")) sample_db)
           "ann@example.com" "secret" "Ann" "user"
           (mkAuthentication "auth-001" "ann@example.com" "hash" role_user));
    try done; try (by eexists); vm_compute; apply list_elem_of_here.
Defined.

(** X25.  The [login] handler never changes the store and answers
    400, 200 or 500, never 401: the service replaces "Invalid email
    or password" by "Login failed" before the handler looks for it.
    It answers 200 only when the row of the trimmed email exists and
    [bcrypt.compare] accepts the password against its hash. *)
Theorem login_handler_never_401 prisma_message bcrypt_compare trim body s :
  let r := login_handler prisma_message bcrypt_compare trim body s in
  r.2 = s ∧
  (r.1 = (400%nat, None) ∨ r.1 = (500%nat, None) ∨
   ∃ u e p auth,
     r.1 = (200%nat, Some u) ∧
     body_email body = Some e ∧ body_password body = Some p ∧
     List.find (λ a, bool_decide (email a = trim e)) (db_authentication s) = Some auth ∧
     bcrypt_compare p (pass auth) = true ∧
     au_email u = email auth ∧ au_role u = role auth).
Proof.
  intros r. subst r. unfold login_handler.
  destruct (body_email body) as [e|]; [|by split; [|left]].
  destruct (body_password body) as [p|]; [|by split; [|left]].
  destruct (negb _); [by split; [|left]|].
  destruct (login_cases bcrypt_compare (mkLoginInput (trim e) p) s)
    as [->|(u & auth & -> & Hauth & Hcmp & Hemail & Hrole & _)].
  - split; [done|]. right. by left.
  - split; [done|]. right. right. by exists u, e, p, auth.
Qed.

(** ** Orders and carts *)

(** The answer of [getCartByUserId] depends on the carts, their rows
    and the users only. *)
Lemma getCartByUserId_reads schema newCartID userID s1 s2 :
  db_cart s1 = db_cart s2 → db_cartBook s1 = db_cartBook s2 → db_user s1 = db_user s2 →
  (getCartByUserId schema newCartID userID s1).1
  = (getCartByUserId schema newCartID userID s2).1.
Proof.
  intros Hcart Hrows Huser.
  unfold getCartByUserId, catchM, op_bindM, statement, transactionM, lift,
    cart_findUnique_userID, cart_create, op_retM, cart_books.
  rewrite Hcart.
  destruct (List.find _ (db_cart s2)); simpl; [by rewrite Hrows|].
  rewrite Hcart, Huser.
  destruct (existsb _ (db_cart s2)); [done|].
  destruct (negb _); [done|]. simpl. by rewrite Hrows.
Qed.

(** X26.  Placing an order takes nothing out of a cart: a committed
    [createOrder] leaves every cart and every cart row as it was, so
    [getCartByUserId] answers any user after the order as it would
    have answered before, the ordered books included. *)
Theorem createOrder_keeps_cart schema orderID orderData newCartID s resp s' :
  createOrder schema orderID orderData s = (Ok resp, s') →
  db_cart s' = db_cart s ∧ db_cartBook s' = db_cartBook s ∧
  ∀ userID,
    (getCartByUserId schema newCartID userID s').1
    = (getCartByUserId schema newCartID userID s).1.
Proof.
  intros Hcreate. destruct (createOrder_ok _ _ _ _ _ _ Hcreate) as [order Hpost].
  destruct Hpost as (user & address & _ & _ & _ & _ & _ & _ & _ & _ & _ & _ & Hs' & _).
  pose proof (f_equal db_cart Hs') as Hcart.
  pose proof (f_equal db_cartBook Hs') as Hrows.
  pose proof (f_equal db_user Hs') as Huser. simpl in Hcart, Hrows, Huser.
  split_and!; [done..|]. intros userID. by apply getCartByUserId_reads.
Qed.

Lemma createOrder_keeps_cart_witness :
  ∃ resp s',
    createOrder sample_schema "order-100"
      (mkOrderCreateInput "user-001" "addr-001" "0901111111"
         [mkOrderItemInput "book-002" 2]) sample_db_cart = (Ok resp, s') ∧
    cart_books "cart-100" s' = cart_books "cart-100" sample_db_cart ∧
    cart_books "cart-100" s' ≠ [].
Proof.
  eexists _, _. split; [vm_compute; reflexivity|].
  split.
  - unfold cart_books.
    by rewrite (proj1 (proj2 (createOrder_keeps_cart sample_schema "order-100"
                  (mkOrderCreateInput "user-001" "addr-001" "0901111111"
                     [mkOrderItemInput "book-002" 2]) "cart-101" sample_db_cart _ _
                  ltac:(vm_compute; reflexivity)))).
  - vm_compute. discriminate.
Defined.
